(** * httputil: a convenience layer over net/http

    Shallow embedding of [httputil/httputil.go] and the properties of its
    response decoding ([formatValue]), of the generic [Request] call, of the
    verb wrappers, of [Download] and of the package-level functions.

    Go values that the code passes around as [interface{}] are modelled by
    [value]; the variables they may point to live in a heap of typed cells.
    Calls into the Go standard library (net/http, encoding/json,
    encoding/xml, os) are taken from an environment record [Env]; [reflect],
    [bufio.Writer] and [io.Copy] are modelled from their documented
    behaviour.  Everything that touches the outside world threads a [World]
    through the monad [Go], whose second outcome is a run-time panic. *)

From Stdlib Require Import ZArith Ascii String.
From stdpp Require Import gmap strings list fin_maps.

Local Open Scope Z_scope.

(** ** Errors *)

(** [Errorf] is an error built in this package by [fmt.Errorf]: the format
    string of the source and its arguments.  [LibError] is an error value
    handed back by a library call and passed on as it is. *)
Inductive error :=
| Errorf (format : string) (args : list Z)
| LibError (msg : string).

#[global] Instance error_eq_dec : EqDecision error.
Proof. solve_decision. Defined.

(** ** Go values, types and the heap *)

Inductive gotype :=
| TBytes            (* []byte *)
| TString           (* string *)
| TInt              (* int *)
| TIface            (* interface{} *)
| TStruct           (* some struct type *)
| TPtr.             (* some pointer type *)

#[global] Instance gotype_eq_dec : EqDecision gotype.
Proof. solve_decision. Defined.

Abbreviation addr := nat.

(** The dynamic value held by an [interface{}]. *)
Inductive value :=
| VNil                                        (* the nil interface *)
| VBytes (b : list Byte.byte)
| VString (s : string)
| VInt (n : Z)
| VStruct (fields : list (string * string))
| VNilPtr                                     (* a typed nil pointer *)
| VPtr (l : addr).                            (* the address of a variable *)

Definition typeof (v : value) : gotype :=
  match v with
  | VNil => TIface
  | VBytes _ => TBytes
  | VString _ => TString
  | VInt _ => TInt
  | VStruct _ => TStruct
  | VNilPtr | VPtr _ => TPtr
  end.

(** A variable: its static type and its current contents. *)
Record cell := Cell { cell_type : gotype; cell_val : value }.

(** Go's assignability, for the unnamed source types used here: a value of
    type [src] can be stored in a variable of the same type or in an
    [interface{}]. *)
Definition assignable (src dst : gotype) : bool :=
  bool_decide (dst = src) || bool_decide (dst = TIface).

(** ** The world *)

Record World := mkWorld {
  heap : gmap nat cell;                    (* the caller's variables *)
  files : gmap string (list Byte.byte);     (* file contents, by path *)
  disk_free : nat;                         (* bytes the disk still accepts *)
  body_opens : nat;                        (* response bodies handed out *)
  body_closes : nat;                       (* calls of res.Body.Close *)
  file_opens : nat;                        (* files opened by os.OpenFile *)
  file_closes : nat                        (* calls of f.Close *)
}.

Definition set_heap (h : gmap nat cell) (w : World) : World :=
  mkWorld h (files w) (disk_free w) (body_opens w) (body_closes w)
          (file_opens w) (file_closes w).

Inductive outcome (A : Type) :=
| Done (a : A) (w : World)
| Panicked (msg : string) (w : World).
Arguments Done {A} a w.
Arguments Panicked {A} msg w.

Definition Go (A : Type) : Type := World -> outcome A.

Definition ret {A} (a : A) : Go A := fun w => Done a w.

Definition bind {A B} (m : Go A) (k : A -> Go B) : Go B :=
  fun w => match m w with
           | Done a w' => k a w'
           | Panicked msg w' => Panicked msg w'
           end.

(** [defer d; rest]: the deferred call runs when the function leaves, on a
    normal return and on a panic alike. *)
Definition defer {A} (d : World -> World) (rest : Go A) : Go A :=
  fun w => match rest w with
           | Done a w' => Done a (d w')
           | Panicked msg w' => Panicked msg (d w')
           end.

Notation "'do' x <- m ; k" := (bind m (fun x => k))
  (at level 10, x name, m at level 100, k at level 200).

(** ** reflect *)

(** A [reflect.Value]: the zero Value, a plain (unaddressable) value, or
    the variable at an address. *)
Inductive rvalue :=
| RZero
| RVal (v : value)
| RVar (l : addr).

Definition reflect_ValueOf (v : value) : rvalue :=
  match v with
  | VNil => RZero
  | _ => RVal v
  end.

(** [Value.Elem]: the variable a pointer points to; the zero Value for a nil
    pointer; a panic for anything that is neither pointer nor interface. *)
Definition reflect_Elem (rv : rvalue) : Go rvalue :=
  fun w =>
    match rv with
    | RZero => Panicked "reflect: call of reflect.Value.Elem on zero Value" w
    | RVal (VPtr l) =>
        match heap w !! l with
        | Some _ => Done (RVar l) w
        | None => Panicked "invalid memory address" w
        end
    | RVal VNilPtr => Done RZero w
    | RVal _ => Panicked "reflect: call of reflect.Value.Elem on non-pointer Value" w
    | RVar l =>
        match heap w !! l with
        | Some (Cell TIface VNil) => Done RZero w
        | Some (Cell TIface v) => Done (RVal v) w
        | Some (Cell TPtr (VPtr l')) => Done (RVar l') w
        | Some (Cell TPtr _) => Done RZero w
        | _ => Panicked "reflect: call of reflect.Value.Elem on non-pointer Value" w
        end
    end.

(** [Value.Set]: stores [x] in the variable, which has to be addressable
    and of a type [x] is assignable to; panics otherwise. *)
Definition reflect_Set (rv : rvalue) (x : rvalue) : Go unit :=
  fun w =>
    match rv, x with
    | RZero, _ => Panicked "reflect: call of reflect.Value.Set on zero Value" w
    | RVal _, _ => Panicked "reflect: reflect.Value.Set using unaddressable value" w
    | RVar l, RVal xv =>
        match heap w !! l with
        | Some c =>
            if assignable (typeof xv) (cell_type c)
            then Done tt (set_heap (<[l := Cell (cell_type c) xv]> (heap w)) w)
            else Panicked "reflect.Set: value is not assignable to type" w
        | None => Panicked "invalid memory address" w
        end
    | RVar _, _ => Panicked "reflect: call of reflect.Value.Set on zero Value" w
    end.

(** ** The libraries the package calls *)

Record Body := mkBody {
  content : list Byte.byte;        (* the bytes the stream delivers *)
  read_err : option error          (* the error that ends it, if not EOF *)
}.

Record Response := mkResponse {
  StatusCode : Z;
  Header : gmap string (list string);
  ResBody : Body
}.

Record HttpRequest := mkRequest {
  req_method : string;
  req_url : string;
  req_header : gmap string (list string);
  req_body : option (list Byte.byte)
}.

(** [http.Client]: what [Do] answers to a request. *)
Record Client := mkClient {
  Do : HttpRequest -> error + Response
}.

Record Env := mkEnv {
  (* http.NewRequest: the error for an invalid method or URL *)
  NewRequest_err : string -> string -> option error;
  (* textproto.CanonicalMIMEHeaderKey *)
  CanonicalMIMEHeaderKey : string -> string;
  (* json.Unmarshal and xml.Unmarshal: the error and the heap they leave *)
  json_Unmarshal : list Byte.byte -> value -> gmap nat cell ->
                   option error * gmap nat cell;
  xml_Unmarshal : list Byte.byte -> value -> gmap nat cell ->
                  option error * gmap nat cell;
  (* json.Marshal and xml.Marshal *)
  json_Marshal : value -> gmap nat cell -> error + list Byte.byte;
  xml_Marshal : value -> gmap nat cell -> error + list Byte.byte;
  (* os.OpenFile: the error for a path that cannot be opened *)
  OpenFile_err : string -> option error;
  (* goutil.Map.GetString and url.Values.Encode *)
  Map_GetString : gmap string value -> string -> string;
  Values_Encode : gmap string (list string) -> list Byte.byte;
  (* the package-level client of the source, [HTTPClient] *)
  HTTPClient : Client
}.

(** ** formatValue *)

Definition ReturnBytes : Z := 0.
Definition ReturnString : Z := 1.
Definition ReturnJSON : Z := 2.
Definition ReturnXML : Z := 3.

Definition unmarshal
    (f : list Byte.byte -> value -> gmap nat cell -> option error * gmap nat cell)
    (raw : list Byte.byte) (v : value) : Go (option error) :=
  fun w => let '(err, h) := f raw v (heap w) in Done err (set_heap h w).

Definition formatValue (E : Env) (returnType : Z) (raw : list Byte.byte)
    (v : value) : Go (option error) :=
  if returnType =? ReturnBytes then
    do value <- reflect_Elem (reflect_ValueOf v);
    do _ <- reflect_Set value (reflect_ValueOf (VBytes raw));
    ret None
  else if returnType =? ReturnString then
    do value <- reflect_Elem (reflect_ValueOf v);
    do _ <- reflect_Set value (reflect_ValueOf (VString (String.string_of_list_byte raw)));
    ret None
  else if returnType =? ReturnJSON then
    unmarshal (json_Unmarshal E) raw v
  else if returnType =? ReturnXML then
    unmarshal (xml_Unmarshal E) raw v
  else
    ret (Some (Errorf "unknown return type" [])).

(** ** Streams and files *)

Definition bump_body_opens (w : World) : World :=
  mkWorld (heap w) (files w) (disk_free w) (S (body_opens w)) (body_closes w)
          (file_opens w) (file_closes w).

(** [res.Body.Close()] *)
Definition Body_Close (w : World) : World :=
  mkWorld (heap w) (files w) (disk_free w) (body_opens w) (S (body_closes w))
          (file_opens w) (file_closes w).

(** [f.Close()] *)
Definition File_Close (w : World) : World :=
  mkWorld (heap w) (files w) (disk_free w) (body_opens w) (body_closes w)
          (file_opens w) (S (file_closes w)).

(** [c.Do(req)]: a response comes with an open body stream. *)
Definition Client_Do (c : Client) (req : HttpRequest) : Go (error + Response) :=
  fun w => match Do c req with
           | inl err => Done (inl err) w
           | inr res => Done (inr res) (bump_body_opens w)
           end.

(** [ioutil.ReadAll]: the bytes read, and the error unless the stream ended
    with EOF. *)
Definition ioutil_ReadAll (b : Body) : list Byte.byte * option error :=
  (content b, read_err b).

(** [os.OpenFile(name, O_CREATE|O_WRONLY|O_TRUNC, ModePerm)]: the file is
    created or emptied. *)
Definition os_OpenFile (E : Env) (name : string) : Go (option error) :=
  fun w => match OpenFile_err E name with
           | Some err => Done (Some err) w
           | None =>
               Done None
                 (mkWorld (heap w) (<[name := []]> (files w)) (disk_free w)
                    (body_opens w) (body_closes w) (S (file_opens w))
                    (file_closes w))
           end.

(** [os.File.Write]: appends what the disk still accepts; a short write
    comes with an error. *)
Definition File_Write (name : string) (p : list Byte.byte)
    : Go (nat * option error) :=
  fun w =>
    let n := Nat.min (length p) (disk_free w) in
    Done (n, if (n <? length p)%nat
             then Some (LibError "no space left on device") else None)
      (mkWorld (heap w)
         (<[name := default [] (files w !! name) ++ take n p]> (files w))
         (disk_free w - n)%nat
         (body_opens w) (body_closes w) (file_opens w) (file_closes w)).

(** ** bufio.Writer *)

Record Writer := mkWriter {
  wr : string;                 (* the file written to *)
  wbuf : list Byte.byte;       (* the bytes buffered, [b.buf[0:b.n]] *)
  wsize : nat;                 (* the buffer's size *)
  werr : option error          (* the error that stopped the writer *)
}.

Definition defaultBufSize : nat := 4096.

Definition bufio_NewWriter (f : string) : Writer :=
  mkWriter f [] defaultBufSize None.

Definition Available (b : Writer) : nat := (wsize b - length (wbuf b))%nat.

(** [Writer.Flush]: forwards the buffered bytes to the file; keeps what
    was not written and remembers the error. *)
Definition Flush (b : Writer) : Go (Writer * option error) :=
  match werr b with
  | Some err => ret (b, Some err)
  | None =>
      if (length (wbuf b) =? 0)%nat then ret (b, None)
      else
        do r <- File_Write (wr b) (wbuf b);
        let err :=
          match snd r with
          | None => if (fst r <? length (wbuf b))%nat
                    then Some (LibError "short write") else None
          | Some err => Some err
          end in
        match err with
        | Some err =>
            ret (mkWriter (wr b) (drop (fst r) (wbuf b)) (wsize b) (Some err),
                 Some err)
        | None => ret (mkWriter (wr b) [] (wsize b) None, None)
        end
  end.

(** The loop of [Writer.ReadFrom], one byte of the source at a time: the
    buffer is flushed whenever it is full; the source ends with EOF
    ([rerr = None]) or with its read error. *)
Fixpoint ReadFrom_loop (src : list Byte.byte) (rerr : option error)
    (b : Writer) (n : Z) : Go (Writer * Z * option error) :=
  do r <- (if (Available b =? 0)%nat then Flush b else ret (b, None));
  match snd r with
  | Some err1 => ret (fst r, n, Some err1)
  | None =>
      match src with
      | x :: src' =>
          ReadFrom_loop src' rerr
            (mkWriter (wr (fst r)) (wbuf (fst r) ++ [x]) (wsize (fst r))
               (werr (fst r)))
            (n + 1)
      | [] =>
          match rerr with
          | Some err => ret (fst r, n, Some err)
          | None =>
              if (Available (fst r) =? 0)%nat
              then do r' <- Flush (fst r); ret (fst r', n, snd r')
              else ret (fst r, n, None)
          end
      end
  end.

(** [io.Copy(buf, res.Body)] with a [bufio.Writer] as destination is the
    writer's [ReadFrom]; every byte passes through the writer's buffer. *)
Definition io_Copy (b : Writer) (src : Body) : Go (Writer * Z * option error) :=
  match werr b with
  | Some err => ret (b, 0, Some err)
  | None => ReadFrom_loop (content src) (read_err src) b 0
  end.

(** ** Client.Request *)

(** [http.Header.Set] and [http.Header.Get]: both canonicalize the key;
    [Get] answers the first value stored under it, or the empty string. *)
Definition Header_Set (E : Env) (h : gmap string (list string))
    (key val : string) : gmap string (list string) :=
  <[CanonicalMIMEHeaderKey E key := [val]]> h.

Definition Header_Get (E : Env) (h : gmap string (list string))
    (key : string) : string :=
  match h !! CanonicalMIMEHeaderKey E key with
  | Some (v :: _) => v
  | _ => EmptyString
  end.

(** The loop [for k, _ := range res.Header { header[k] = res.Header.Get(k) }]
    of [Request]. *)
Definition copy_header (E : Env) (h : gmap string (list string))
    : gmap string string :=
  map_fold (fun k _ header => <[k := Header_Get E h k]> header) ∅ h.

(** [http.NewRequest(method, url, data)] *)
Definition http_NewRequest (E : Env) (method url : string)
    (data : option (list Byte.byte)) : error + HttpRequest :=
  match NewRequest_err E method url with
  | Some err => inl err
  | None => inr (mkRequest method url ∅ data)
  end.

(** The loop [for k, v := range hds { req.Header.Set(k, v) }]. *)
Definition set_headers (E : Env) (req : HttpRequest)
    (hds : gmap string string) : HttpRequest :=
  mkRequest (req_method req) (req_url req)
    (map_fold (fun k v h => Header_Set E h k v) (req_header req) hds)
    (req_body req).

(** The results of [Request]: [code], [header] and [err]; a nil map reads as
    the empty map. *)
Definition Request (E : Env) (c : Client) (method url : string)
    (hds : gmap string string) (data : option (list Byte.byte))
    (returnType : Z) (result : value)
    : Go (Z * gmap string string * option error) :=
  match http_NewRequest E method url data with
  | inl err => ret (0, ∅, Some err)
  | inr req =>
      do res <- Client_Do c (set_headers E req hds);
      match res with
      | inl err => ret (0, ∅, Some err)
      | inr res =>
          let header := copy_header E (Header res) in
          match ioutil_ReadAll (ResBody res) with
          | (_, Some err) => ret (0, header, Some err)
          | (body, None) =>
              defer Body_Close
                (do err <- formatValue E returnType body result;
                 match err with
                 | Some err => ret (0, header, Some err)
                 | None => ret (StatusCode res, header, None)
                 end)
          end
      end
  end.

(** ** The verb wrappers *)

Definition StatusOK : Z := 200.

Definition GetWithHeader (E : Env) (c : Client) (url : string)
    (header : gmap string string) (returnType : Z) (result : value)
    : Go (option error) :=
  do r <- Request E c "GET" url header None returnType result;
  let '(code, _, err) := r in
  match err with
  | Some err => ret (Some err)
  | None =>
      if negb (code =? StatusOK)
      then ret (Some (Errorf "http response code; %v" [code]))
      else ret None
  end.

Definition Get (E : Env) (c : Client) (url : string) (returnType : Z)
    (result : value) : Go (option error) :=
  GetWithHeader E c url ∅ returnType result.

Definition PostWithHeader (E : Env) (c : Client) (url : string)
    (header : gmap string string) (body : option (list Byte.byte))
    (returnType : Z) (result : value) : Go (option error) :=
  do r <- Request E c "POST" url header body returnType result;
  let '(code, _, err) := r in
  match err with
  | Some err => ret (Some err)
  | None =>
      if negb (code =? StatusOK)
      then ret (Some (Errorf "http response code; %v" [code]))
      else ret None
  end.

Definition PostForm (E : Env) (c : Client) (url : string)
    (form : gmap string value) (returnType : Z) (result : value)
    : Go (option error) :=
  let values :=
    map_fold (fun k _ values => <[k := [Map_GetString E form k]]> values)
      ∅ form in
  let header : gmap string string :=
    {[ "Content-Type" := "application/x-www-form-urlencoded" ]} in
  PostWithHeader E c url header (Some (Values_Encode E values))
    returnType result.

Definition PostJSON (E : Env) (c : Client) (url : string) (body : value)
    (returnType : Z) (result : value) : Go (option error) :=
  let header : gmap string string :=
    {[ "Content-Type" := "application/json" ]} in
  fun w =>
    match json_Marshal E body (heap w) with
    | inl err => Done (Some err) w
    | inr bys => PostWithHeader E c url header (Some bys) returnType result w
    end.

Definition PostXML (E : Env) (c : Client) (url : string) (body : value)
    (returnType : Z) (result : value) : Go (option error) :=
  let header : gmap string string :=
    {[ "Content-Type" := "application/xml" ]} in
  fun w =>
    match xml_Marshal E body (heap w) with
    | inl err => Done (Some err) w
    | inr bys => PostWithHeader E c url header (Some bys) returnType result w
    end.

(** ** Client.Download *)

Definition Download (E : Env) (c : Client) (url savePath : string)
    : Go (Z * option error) :=
  match http_NewRequest E "GET" url None with
  | inl err => ret (0, Some err)
  | inr req =>
      do res <- Client_Do c req;
      match res with
      | inl err => ret (0, Some err)
      | inr res =>
          if negb (StatusCode res =? 200)
          then ret (0, Some (Errorf "http response code: %v" [StatusCode res]))
          else
            do err <- os_OpenFile E savePath;
            match err with
            | Some err => ret (0, Some err)
            | None =>
                defer File_Close
                  (let buf := bufio_NewWriter savePath in
                   do r <- io_Copy buf (ResBody res);
                   let '(buf, l, err) := r in
                   match err with
                   | Some err => ret (0, Some err)
                   | None =>
                       defer Body_Close
                         (do _ <- Flush buf;
                          ret (l, err))
                   end)
            end
      end
  end.

(** ** The package-level functions *)

(** [&v] for a parameter [v interface{}]: the parameter is a variable of its
    own, holding a copy of the argument. *)
Definition addr_of_param (v : value) : Go value :=
  fun w =>
    let l := fresh (dom (heap w)) in
    Done (VPtr l) (set_heap (<[l := Cell TIface v]> (heap w)) w).

Module Pkg.

Definition Request (E : Env) (method url : string) (hds : gmap string string)
    (data : option (list Byte.byte)) (returnType : Z) (result : value)
    : Go (Z * gmap string string * option error) :=
  Request E (HTTPClient E) method url hds data returnType result.

Definition Get (E : Env) (url : string) (returnType : Z) (v : value)
    : Go (option error) :=
  do p <- addr_of_param v;
  Get E (HTTPClient E) url returnType p.

Definition GetWithHeader (E : Env) (url : string)
    (header : gmap string string) (returnType : Z) (result : value)
    : Go (option error) :=
  do p <- addr_of_param result;
  GetWithHeader E (HTTPClient E) url header returnType p.

Definition PostForm (E : Env) (url : string) (form : gmap string value)
    (returnType : Z) (result : value) : Go (option error) :=
  do p <- addr_of_param result;
  PostForm E (HTTPClient E) url form returnType p.

Definition PostJSON (E : Env) (url : string) (body : value)
    (returnType : Z) (result : value) : Go (option error) :=
  do p <- addr_of_param result;
  PostJSON E (HTTPClient E) url body returnType p.

Definition PostXML (E : Env) (url : string) (body : value)
    (returnType : Z) (result : value) : Go (option error) :=
  do p <- addr_of_param result;
  PostXML E (HTTPClient E) url body returnType p.

Definition PostWithHeader (E : Env) (url : string)
    (header : gmap string string) (body : option (list Byte.byte))
    (returnType : Z) (result : value) : Go (option error) :=
  PostWithHeader E (HTTPClient E) url header body returnType result.

Definition Download (E : Env) (url savePath : string)
    : Go (Z * option error) :=
  Download E (HTTPClient E) url savePath.

End Pkg.

(** ** Concrete environments

    A model of [textproto.CanonicalMIMEHeaderKey] and small servers, used to
    run the functions above on concrete inputs. *)

Module Example.

Definition is_lower (c : ascii) : bool :=
  let n := nat_of_ascii c in ((97 <=? n) && (n <=? 122))%nat.

Definition is_upper (c : ascii) : bool :=
  let n := nat_of_ascii c in ((65 <=? n) && (n <=? 90))%nat.

Definition is_digit (c : ascii) : bool :=
  let n := nat_of_ascii c in ((48 <=? n) && (n <=? 57))%nat.

Definition to_upper (c : ascii) : ascii :=
  if is_lower c then ascii_of_nat (nat_of_ascii c - 32) else c.

Definition to_lower (c : ascii) : ascii :=
  if is_upper c then ascii_of_nat (nat_of_ascii c + 32) else c.

Definition valid_header_byte (c : ascii) : bool :=
  is_lower c || is_upper c || is_digit c ||
  existsb (Ascii.eqb c) (list_ascii_of_string "!#$%&'*+-.^_`|~").

Fixpoint canonical_loop (upper : bool) (s : string) : string :=
  match s with
  | EmptyString => EmptyString
  | String c s' =>
      String (if upper then to_upper c else to_lower c)
        (canonical_loop (Ascii.eqb c "-") s')
  end.

(** A key with a byte that cannot occur in a header name is left as it is;
    otherwise the first letter and every letter after a hyphen become upper
    case and the others lower case. *)
Definition canonicalMIMEHeaderKey (s : string) : string :=
  if forallb valid_header_byte (list_ascii_of_string s)
  then canonical_loop true s else s.

(** A JSON decoder that only looks at the first byte: an object is accepted
    (and the target left alone), anything else is rejected. *)
Definition json_stub (raw : list Byte.byte) (v : value) (h : gmap nat cell)
    : option error * gmap nat cell :=
  match raw with
  | Byte.x7b :: _ => (None, h)
  | _ => (Some (LibError "invalid character looking for beginning of value"), h)
  end.

Definition xml_stub (raw : list Byte.byte) (v : value) (h : gmap nat cell)
    : option error * gmap nat cell :=
  match raw with
  | Byte.x3c :: _ => (None, h)
  | _ => (Some (LibError "EOF"), h)
  end.

(** A server that answers every request with [res]. *)
Definition server (res : Response) : Client := mkClient (fun _ => inr res).

Definition env (c : Client) : Env :=
  mkEnv (fun _ _ => None) canonicalMIMEHeaderKey json_stub xml_stub
    (fun _ _ => inr [Byte.x7b; Byte.x7d]) (fun _ _ => inr [Byte.x3c; Byte.x61; Byte.x2f; Byte.x3e])
    (fun _ => None) (fun _ _ => EmptyString) (fun _ => []) c.

Definition url : string := "http://example.test/data".
Definition path : string := "/tmp/data.bin".

(** "hi" *)
Definition hi : list Byte.byte := [Byte.x68; Byte.x69].

(** "not found" *)
Definition not_found : list Byte.byte :=
  [Byte.x6e; Byte.x6f; Byte.x74; Byte.x20; Byte.x66; Byte.x6f; Byte.x75;
   Byte.x6e; Byte.x64].

Definition res_ok : Response :=
  mkResponse 200 {[ "Content-Type" := ["text/plain"] ]} (mkBody hi None).

Definition res_404 : Response :=
  mkResponse 404 {[ "Content-Type" := ["text/plain"] ]} (mkBody not_found None).

Definition res_cookies : Response :=
  mkResponse 200 {[ "Set-Cookie" := ["a=1"; "b=2"] ]} (mkBody hi None).

(** A body of 5000 bytes, more than the writer's buffer holds. *)
Definition big : list Byte.byte := repeat Byte.x61 5000.

Definition res_big : Response :=
  mkResponse 200 ∅ (mkBody big None).

(** A 200 response whose body breaks off after "hi". *)
Definition res_broken : Response :=
  mkResponse 200 {[ "Content-Type" := ["text/plain"] ]}
    (mkBody hi (Some (LibError "unexpected EOF"))).

(** The same environment on a file system that refuses to open files. *)
Definition env_readonly (c : Client) : Env :=
  mkEnv (fun _ _ => None) canonicalMIMEHeaderKey json_stub xml_stub
    (fun _ _ => inr [Byte.x7b; Byte.x7d]) (fun _ _ => inr [Byte.x3c; Byte.x61; Byte.x2f; Byte.x3e])
    (fun _ => Some (LibError "permission denied"))
    (fun _ _ => EmptyString) (fun _ => []) c.

(** A server that answers [res] to POST requests only. *)
Definition post_only (res : Response) : Client :=
  mkClient (fun req =>
              if String.eqb (req_method req) "POST" then inr res
              else inl (LibError "method not allowed")).

(** A form with the two fields a=1 and b=2, read by a [GetString] that
    prints the integer fields. *)
Definition form_ab : gmap string value :=
  {[ "a" := VInt 1; "b" := VInt 2 ]}.

(** A client whose transport fails. *)
Definition offline : Client :=
  mkClient (fun _ => inl (LibError "connection refused")).

(** An environment where [http.NewRequest] rejects every URL. *)
Definition env_bad_url (c : Client) : Env :=
  mkEnv (fun _ _ => Some (LibError "missing protocol scheme"))
    canonicalMIMEHeaderKey json_stub xml_stub
    (fun _ _ => inr [Byte.x7b; Byte.x7d]) (fun _ _ => inr [Byte.x3c; Byte.x61; Byte.x2f; Byte.x3e])
    (fun _ => None) (fun _ _ => EmptyString) (fun _ => []) c.

(** An environment whose encoders reject every value. *)
Definition env_no_marshal (c : Client) : Env :=
  mkEnv (fun _ _ => None) canonicalMIMEHeaderKey json_stub xml_stub
    (fun _ _ => inl (LibError "json: unsupported type"))
    (fun _ _ => inl (LibError "xml: unsupported type"))
    (fun _ => None) (fun _ _ => EmptyString) (fun _ => []) c.

(** A response with a header name the transport left in lower case and one
    without values. *)
Definition res_odd_header : Response :=
  mkResponse 200 {[ "x-trace" := ["t1"]; "X-Empty" := [] ]} (mkBody hi None).

(** A second variable of the caller, [var text string] at address 1. *)
Definition world2 (free : nat) : World :=
  mkWorld {[ 0%nat := Cell TBytes (VBytes []);
             1%nat := Cell TString (VString EmptyString) ]} ∅ free 0 0 0 0.

(** The caller has one variable, [var buf []byte] at address 0; [free] is
    what the disk still takes. *)
Definition world (free : nat) : World :=
  mkWorld {[ 0%nat := Cell TBytes (VBytes []) ]} ∅ free 0 0 0 0.

End Example.

(** ** Predicates used in the statements *)

(** [v] is a non-nil pointer to a variable that a value of type [t] can be
    assigned to. *)
Definition settable_ref (w : World) (v : value) (t : gotype) : bool :=
  match v with
  | VPtr l =>
      match heap w !! l with
      | Some c => assignable t (cell_type c)
      | None => false
      end
  | _ => false
  end.

(** The type of the value [formatValue] assigns for a return type. *)
Definition assigned_type (returnType : Z) : gotype :=
  if returnType =? ReturnBytes then TBytes else TString.

(** What a status-checking wrapper answers for a response [res] whose
    status is not 200, given how decoding the body goes: the status error
    after a decode without error, the decode error otherwise, and the panic
    when decoding panics; the body is closed in each case. *)
Definition non_ok_result (E : Env) (res : Response) (returnType : Z)
    (result : value) (w : World) (call : outcome (option error)) : Prop :=
  match formatValue E returnType (content (ResBody res)) result
          (bump_body_opens w) with
  | Done None w1 =>
      call = Done (Some (Errorf "http response code; %v" [StatusCode res]))
               (Body_Close w1)
  | Done (Some err) w1 => call = Done (Some err) (Body_Close w1)
  | Panicked msg w1 => call = Panicked msg (Body_Close w1)
  end.

(** Writing to a file leaves the caller's variables and the counts of
    opened and closed streams and files as they were. *)
Definition io_frame (w w' : World) : Prop :=
  heap w' = heap w /\
  body_opens w' = body_opens w /\ body_closes w' = body_closes w /\
  file_opens w' = file_opens w /\ file_closes w' = file_closes w.

(** The world a call leaves, whether it returns or panics. *)
Definition final_world {A} (o : outcome A) : World :=
  match o with
  | Done _ w => w
  | Panicked _ w => w
  end.

(** Only the caller's variables may differ between [w] and [w']. *)
Definition heap_only (w w' : World) : Prop :=
  files w' = files w /\ disk_free w' = disk_free w /\
  body_opens w' = body_opens w /\ body_closes w' = body_closes w /\
  file_opens w' = file_opens w /\ file_closes w' = file_closes w.

(** Splits the conjunctions of a goal as they are written. *)
Ltac conjs := repeat match goal with |- _ /\ _ => split end.

(** * Properties of formatValue *)

Section FormatValue.

Context (E : Env).

(** Assigning through a settable reference: the shared core of the
    [ReturnBytes] and [ReturnString] branches. *)
Lemma set_through_pointer w l c x :
  heap w !! l = Some c ->
  assignable (typeof x) (cell_type c) = true ->
  x <> VNil ->
  bind (reflect_Elem (reflect_ValueOf (VPtr l)))
       (fun value => bind (reflect_Set value (reflect_ValueOf x))
                          (fun _ => ret (@None error))) w
  = Done None (set_heap (<[l := Cell (cell_type c) x]> (heap w)) w).
Proof.
  intros Hl Ha Hx. unfold bind, reflect_Elem, reflect_Set; simpl.
  rewrite Hl. destruct x; try congruence; simpl in *; rewrite Hl, Ha; done.
Qed.

Lemma set_without_reference w v x :
  settable_ref w v (typeof x) = false ->
  x <> VNil ->
  exists msg,
    bind (reflect_Elem (reflect_ValueOf v))
         (fun value => bind (reflect_Set value (reflect_ValueOf x))
                            (fun _ => ret (@None error))) w
    = Panicked msg w.
Proof.
  intros Hs Hx. unfold bind, reflect_Elem, reflect_Set.
  destruct v as [| | | | | |l]; simpl in *; eauto.
  destruct (heap w !! l) as [c|] eqn:Hl; eauto.
  destruct x; try congruence; simpl in *; rewrite Hl, Hs; eauto.
Qed.

(** C7: for every byte sequence [b], the empty one included, decoding with
    [ReturnBytes] through a pointer to a variable that can hold a byte
    sequence returns no error and leaves exactly [b] in that variable, the
    rest of the world being as before. *)
Theorem formatValue_bytes_verbatim (b : list Byte.byte) (l : addr)
    (c : cell) (w : World) :
  heap w !! l = Some c ->
  assignable TBytes (cell_type c) = true ->
  exists w',
    formatValue E ReturnBytes b (VPtr l) w = Done None w' /\
    heap w' !! l = Some (Cell (cell_type c) (VBytes b)) /\
    w' = set_heap (<[l := Cell (cell_type c) (VBytes b)]> (heap w)) w.
Proof.
  intros Hl Ha. eexists. split; [|split; [|reflexivity]].
  - unfold formatValue. simpl.
    by apply (set_through_pointer w l c (VBytes b)).
  - simpl. apply lookup_insert_eq.
Qed.

(** C8: for every return type outside [ReturnBytes .. ReturnXML] and every
    byte sequence, [formatValue] returns the error "unknown return type" and
    leaves the world, the caller's variable included, as it was. *)
Theorem formatValue_unknown_kind (returnType : Z) (b : list Byte.byte)
    (v : value) (w : World) :
  returnType < ReturnBytes \/ ReturnXML < returnType ->
  formatValue E returnType b v w
  = Done (Some (Errorf "unknown return type" [])) w.
Proof.
  unfold ReturnBytes, ReturnXML. intros H. unfold formatValue.
  unfold ReturnBytes, ReturnString, ReturnJSON, ReturnXML.
  destruct (Z.eqb_spec returnType 0); [lia|].
  destruct (Z.eqb_spec returnType 1); [lia|].
  destruct (Z.eqb_spec returnType 2); [lia|].
  destruct (Z.eqb_spec returnType 3); [lia|].
  reflexivity.
Qed.

(** C10: with [ReturnBytes] or [ReturnString], whatever the payload, an
    output argument that is not a non-nil pointer to a variable able to hold
    the decoded value makes [formatValue] panic; no error is returned and
    nothing is written. *)
Theorem formatValue_panics_without_reference (returnType : Z)
    (b : list Byte.byte) (v : value) (w : World) :
  returnType = ReturnBytes \/ returnType = ReturnString ->
  settable_ref w v (assigned_type returnType) = false ->
  exists msg, formatValue E returnType b v w = Panicked msg w.
Proof.
  intros [-> | ->] Hs; unfold formatValue; simpl in *.
  - by apply (set_without_reference w v (VBytes b)).
  - by apply (set_without_reference w v (VString (String.string_of_list_byte b))).
Qed.

End FormatValue.

Lemma formatValue_bytes_verbatim_witness :
  exists w',
    formatValue (Example.env (Example.server Example.res_ok)) ReturnBytes []
      (VPtr 0) (Example.world 0) = Done None w' /\
    heap w' !! 0%nat = Some (Cell TBytes (VBytes [])) /\
    w' = set_heap (<[0%nat := Cell TBytes (VBytes [])]>
                     (heap (Example.world 0))) (Example.world 0).
Proof.
  apply (formatValue_bytes_verbatim _ [] 0%nat (Cell TBytes (VBytes []))
           (Example.world 0)); reflexivity.
Defined.

Lemma formatValue_unknown_kind_witness :
  formatValue (Example.env (Example.server Example.res_ok)) 4 Example.hi
    (VPtr 0) (Example.world 0)
  = Done (Some (Errorf "unknown return type" [])) (Example.world 0).
Proof.
  apply formatValue_unknown_kind. right. reflexivity.
Defined.

Lemma formatValue_panics_without_reference_witness :
  exists msg,
    formatValue (Example.env (Example.server Example.res_ok)) ReturnString
      Example.hi (VBytes []) (Example.world 0)
    = Panicked msg (Example.world 0).
Proof.
  apply formatValue_panics_without_reference; [right|]; reflexivity.
Defined.


(** * Properties of Request and of the verb wrappers *)

Section Requests.

Context (E : Env) (c : Client).

(** [Request] once the request is built and sent: the header mapping is
    taken first, then the body is read, then decoded, and the status code is
    stored last. *)
Lemma Request_sent method url hds data returnType result w req res :
  http_NewRequest E method url data = inr req ->
  Do c (set_headers E req hds) = inr res ->
  Request E c method url hds data returnType result w =
  match read_err (ResBody res) with
  | Some err =>
      Done (0, copy_header E (Header res), Some err) (bump_body_opens w)
  | None =>
      match formatValue E returnType (content (ResBody res)) result
              (bump_body_opens w) with
      | Done (Some err) w1 =>
          Done (0, copy_header E (Header res), Some err) (Body_Close w1)
      | Done None w1 =>
          Done (StatusCode res, copy_header E (Header res), None)
            (Body_Close w1)
      | Panicked msg w1 => Panicked msg (Body_Close w1)
      end
  end.
Proof.
  intros Hreq Hdo. unfold Request. rewrite Hreq.
  unfold bind at 1. unfold Client_Do. rewrite Hdo.
  unfold ioutil_ReadAll.
  destruct (read_err (ResBody res)) as [err|]; [reflexivity|].
  unfold defer, bind.
  destruct (formatValue E returnType (content (ResBody res)) result
              (bump_body_opens w)) as [[err|] w1|msg w1]; reflexivity.
Qed.

(** A request to [url] is built whenever [http.NewRequest] accepts the
    method and the URL. *)
Lemma http_NewRequest_ok method url data :
  NewRequest_err E method url = None ->
  http_NewRequest E method url data = inr (mkRequest method url ∅ data).
Proof. intros H. unfold http_NewRequest. by rewrite H. Qed.

(** C1, amended: when the request was sent and the body read, and decoding
    fails with [err], [Request] returns [err] together with the header
    mapping it had already built, but with status code 0: the status code
    of the response is stored only after a decode without error. *)
Theorem Request_decode_error_code_zero method url hds data returnType
    result w req res err w1 :
  http_NewRequest E method url data = inr req ->
  Do c (set_headers E req hds) = inr res ->
  read_err (ResBody res) = None ->
  formatValue E returnType (content (ResBody res)) result
    (bump_body_opens w) = Done (Some err) w1 ->
  Request E c method url hds data returnType result w
  = Done (0, copy_header E (Header res), Some err) (Body_Close w1).
Proof.
  intros Hreq Hdo Hread Hfmt.
  rewrite (Request_sent _ _ _ _ _ _ _ req res Hreq Hdo).
  by rewrite Hread, Hfmt.
Qed.

(** The wrappers around [Request] that check the status code. *)
Lemma GetWithHeader_non_ok url header returnType result w res :
  NewRequest_err E "GET" url = None ->
  (forall req, req_url req = url -> Do c req = inr res) ->
  read_err (ResBody res) = None ->
  StatusCode res <> StatusOK ->
  non_ok_result E res returnType result w
    (GetWithHeader E c url header returnType result w).
Proof.
  intros Hnew Hdo Hread Hcode. unfold non_ok_result, GetWithHeader, bind.
  rewrite (Request_sent _ _ _ _ _ _ _ _ res
             (http_NewRequest_ok _ _ _ Hnew)
             (Hdo (set_headers E (mkRequest "GET" url ∅ None) header)
                  eq_refl)).
  rewrite Hread.
  destruct (formatValue E returnType (content (ResBody res)) result
              (bump_body_opens w)) as [[err|] w1|msg w1]; try reflexivity.
  destruct (Z.eqb_spec (StatusCode res) StatusOK); [contradiction|].
  reflexivity.
Qed.

Lemma PostWithHeader_non_ok url header body returnType result w res :
  NewRequest_err E "POST" url = None ->
  (forall req, req_url req = url -> Do c req = inr res) ->
  read_err (ResBody res) = None ->
  StatusCode res <> StatusOK ->
  non_ok_result E res returnType result w
    (PostWithHeader E c url header body returnType result w).
Proof.
  intros Hnew Hdo Hread Hcode. unfold non_ok_result, PostWithHeader, bind.
  rewrite (Request_sent _ _ _ _ _ _ _ _ res
             (http_NewRequest_ok _ _ _ Hnew)
             (Hdo (set_headers E (mkRequest "POST" url ∅ body) header)
                  eq_refl)).
  rewrite Hread.
  destruct (formatValue E returnType (content (ResBody res)) result
              (bump_body_opens w)) as [[err|] w1|msg w1]; try reflexivity.
  destruct (Z.eqb_spec (StatusCode res) StatusOK); [contradiction|].
  reflexivity.
Qed.

(** C2, amended: when the exchange completes with a status code other than
    200, each of [Get], [GetWithHeader], [PostWithHeader], [PostForm],
    [PostJSON] and [PostXML] fails with the status error carrying that code
    if the body decodes without error, whatever the body is; if decoding
    fails, the decode error is returned in its place. *)
Theorem wrappers_non_ok_status url header form body data returnType result
    w res :
  NewRequest_err E "GET" url = None ->
  NewRequest_err E "POST" url = None ->
  (forall req, req_url req = url -> Do c req = inr res) ->
  read_err (ResBody res) = None ->
  StatusCode res <> StatusOK ->
  non_ok_result E res returnType result w
    (Get E c url returnType result w) /\
  non_ok_result E res returnType result w
    (GetWithHeader E c url header returnType result w) /\
  non_ok_result E res returnType result w
    (PostWithHeader E c url header data returnType result w) /\
  non_ok_result E res returnType result w
    (PostForm E c url form returnType result w) /\
  (forall bys, json_Marshal E body (heap w) = inr bys ->
     non_ok_result E res returnType result w
       (PostJSON E c url body returnType result w)) /\
  (forall bys, xml_Marshal E body (heap w) = inr bys ->
     non_ok_result E res returnType result w
       (PostXML E c url body returnType result w)).
Proof.
  intros Hget Hpost Hdo Hread Hcode.
  repeat split.
  - by apply GetWithHeader_non_ok.
  - by apply GetWithHeader_non_ok.
  - by apply PostWithHeader_non_ok.
  - by apply PostWithHeader_non_ok.
  - intros bys Hm. unfold PostJSON. rewrite Hm.
    by apply PostWithHeader_non_ok.
  - intros bys Hm. unfold PostXML. rewrite Hm.
    by apply PostWithHeader_non_ok.
Qed.

End Requests.

Lemma Request_decode_error_code_zero_witness :
  formatValue (Example.env (Example.server Example.res_404)) ReturnJSON
    Example.not_found (VPtr 0) (bump_body_opens (Example.world 0))
  = Done (Some (LibError "invalid character looking for beginning of value"))
      (bump_body_opens (Example.world 0)) /\
  Request (Example.env (Example.server Example.res_404))
    (Example.server Example.res_404) "GET" Example.url ∅ None
    ReturnJSON (VPtr 0) (Example.world 0)
  = Done (0, copy_header (Example.env (Example.server Example.res_404))
               (Header Example.res_404),
          Some (LibError "invalid character looking for beginning of value"))
      (Body_Close (bump_body_opens (Example.world 0))).
Proof.
  split; [reflexivity|].
  apply (Request_decode_error_code_zero
           (Example.env (Example.server Example.res_404))
           (Example.server Example.res_404) "GET" Example.url ∅ None
           ReturnJSON (VPtr 0) (Example.world 0)
           (mkRequest "GET" Example.url ∅ None) Example.res_404);
    reflexivity.
Defined.

(** C1 as stated fails: a 404 response whose body is not JSON, decoded with
    [ReturnJSON], makes [Request] return the decode error with status code
    0, not the 404 the transport reported; the same happens with a return
    type the package does not know. *)
Lemma Request_decode_error_status_counterexample :
  (exists hm w',
     Request (Example.env (Example.server Example.res_404))
       (Example.server Example.res_404) "GET" Example.url ∅ None
       ReturnJSON (VPtr 0) (Example.world 0)
     = Done (0, hm,
             Some (LibError "invalid character looking for beginning of value"))
         w') /\
  (exists hm w',
     Request (Example.env (Example.server Example.res_404))
       (Example.server Example.res_404) "GET" Example.url ∅ None
       7 (VPtr 0) (Example.world 0)
     = Done (0, hm, Some (Errorf "unknown return type" [])) w') /\
  StatusCode Example.res_404 = 404 /\
  0 <> StatusCode Example.res_404.
Proof.
  split; [|split; [|split]].
  - vm_compute. eexists _, _. reflexivity.
  - vm_compute. eexists _, _. reflexivity.
  - reflexivity.
  - discriminate.
Qed.

Lemma wrappers_non_ok_status_witness :
  StatusCode Example.res_404 <> StatusOK /\
  non_ok_result (Example.env (Example.server Example.res_404))
    Example.res_404 ReturnBytes (VPtr 0) (Example.world 0)
    (Get (Example.env (Example.server Example.res_404))
       (Example.server Example.res_404) Example.url ReturnBytes (VPtr 0)
       (Example.world 0)) /\
  Get (Example.env (Example.server Example.res_404))
    (Example.server Example.res_404) Example.url ReturnBytes (VPtr 0)
    (Example.world 0)
  = Done (Some (Errorf "http response code; %v" [404]))
      (Body_Close
         (set_heap (<[0%nat := Cell TBytes (VBytes Example.not_found)]>
                      (heap (Example.world 0)))
            (bump_body_opens (Example.world 0)))).
Proof.
  assert (Hc : StatusCode Example.res_404 <> StatusOK) by discriminate.
  split; [exact Hc|]. split; [|reflexivity].
  apply (wrappers_non_ok_status
           (Example.env (Example.server Example.res_404))
           (Example.server Example.res_404) Example.url ∅ ∅ VNil None
           ReturnBytes (VPtr 0) (Example.world 0) Example.res_404);
    try reflexivity; exact Hc.
Defined.

(** C2 as stated fails: against a server that answers 404 with a body that
    is not JSON, [GetWithHeader] and [PostWithHeader] asked for
    [ReturnJSON] return the decode error, not the status error carrying
    404. *)
Lemma wrappers_non_ok_status_counterexample :
  (exists w',
     GetWithHeader (Example.env (Example.server Example.res_404))
       (Example.server Example.res_404) Example.url ∅ ReturnJSON (VPtr 0)
       (Example.world 0)
     = Done (Some (LibError "invalid character looking for beginning of value"))
         w') /\
  (exists w',
     PostWithHeader (Example.env (Example.server Example.res_404))
       (Example.server Example.res_404) Example.url ∅ None ReturnJSON
       (VPtr 0) (Example.world 0)
     = Done (Some (LibError "invalid character looking for beginning of value"))
         w') /\
  StatusCode Example.res_404 = 404 /\
  LibError "invalid character looking for beginning of value"
  <> Errorf "http response code; %v" [404].
Proof.
  split; [|split; [|split]].
  - vm_compute. eexists. reflexivity.
  - vm_compute. eexists. reflexivity.
  - reflexivity.
  - discriminate.
Qed.

(** * The header mapping *)

Section Headers.

Context (E : Env).

(** A loop that stores [g k] under every key of [m] builds the map with
    the keys of [m], whatever the order of the iteration. *)
Lemma fold_insert_lookup {A B} (g : string -> B) (m : gmap string A)
    (k : string) :
  map_fold (fun k (_ : A) acc => <[k := g k]> acc) (∅ : gmap string B) m !! k
  = (fun _ => g k) <$> m !! k.
Proof.
  revert k.
  apply (map_fold_weak_ind
           (fun (r : gmap string B) (m : gmap string A) =>
              forall k, r !! k = (fun _ => g k) <$> m !! k)).
  - intros k. by rewrite !lookup_empty.
  - intros i x m' r Hi IH k.
    destruct (decide (i = k)) as [->|Hne].
    + by rewrite !lookup_insert_eq.
    + rewrite !lookup_insert_ne by done. apply IH.
Qed.

Lemma copy_header_lookup (h : gmap string (list string)) (k : string) :
  copy_header E h !! k = (fun _ => Header_Get E h k) <$> h !! k.
Proof. unfold copy_header. apply fold_insert_lookup. Qed.

Lemma copy_header_dom (h : gmap string (list string)) :
  dom (copy_header E h) = dom h.
Proof.
  apply set_eq. intros k. rewrite !elem_of_dom, copy_header_lookup.
  by rewrite fmap_is_Some.
Qed.

Lemma Header_Get_canonical (h : gmap string (list string)) k v vs :
  CanonicalMIMEHeaderKey E k = k ->
  h !! k = Some (v :: vs) ->
  Header_Get E h k = v.
Proof. intros Hk Hh. unfold Header_Get. by rewrite Hk, Hh. Qed.

(** C6, amended: once the request is sent, [Request] returns unless the
    decode step panics, and the header mapping it returns has exactly the
    header names of the response, spelled as the transport reports them,
    with one value each: what [Header.Get] answers for the name, which for
    a name in canonical form is the first of the values the transport holds
    for it. *)
Theorem Request_header_first_value (c : Client) method url hds data
    returnType result w req res :
  http_NewRequest E method url data = inr req ->
  Do c (set_headers E req hds) = inr res ->
  match Request E c method url hds data returnType result w with
  | Done (_, hm, _) _ =>
      dom hm = dom (Header res) /\
      (forall k vs, Header res !! k = Some vs ->
         hm !! k = Some (Header_Get E (Header res) k)) /\
      (forall k v vs, Header res !! k = Some (v :: vs) ->
         CanonicalMIMEHeaderKey E k = k -> hm !! k = Some v)
  | Panicked _ _ =>
      exists msg w1,
        formatValue E returnType (content (ResBody res)) result
          (bump_body_opens w) = Panicked msg w1
  end.
Proof.
  intros Hreq Hdo.
  assert (Hhm : dom (copy_header E (Header res)) = dom (Header res) /\
    (forall k vs, Header res !! k = Some vs ->
       copy_header E (Header res) !! k
       = Some (Header_Get E (Header res) k)) /\
    (forall k v vs, Header res !! k = Some (v :: vs) ->
       CanonicalMIMEHeaderKey E k = k ->
       copy_header E (Header res) !! k = Some v)).
  { split; [apply copy_header_dom|]. split.
    - intros k vs Hk. by rewrite copy_header_lookup, Hk.
    - intros k v vs Hk Hcanon. rewrite copy_header_lookup, Hk. simpl.
      f_equal. by apply (Header_Get_canonical _ k v vs). }
  rewrite (Request_sent _ _ _ _ _ _ _ _ _ req res Hreq Hdo).
  destruct (read_err (ResBody res)); [exact Hhm|].
  destruct (formatValue E returnType (content (ResBody res)) result
              (bump_body_opens w)) as [[e|] w1|msg w1]; eauto.
Qed.

End Headers.

Lemma Request_header_first_value_witness :
  dom (copy_header (Example.env (Example.server Example.res_cookies))
         (Header Example.res_cookies))
  = dom (Header Example.res_cookies) /\
  (forall k vs, Header Example.res_cookies !! k = Some vs ->
     copy_header (Example.env (Example.server Example.res_cookies))
       (Header Example.res_cookies) !! k
     = Some (Header_Get (Example.env (Example.server Example.res_cookies))
               (Header Example.res_cookies) k)) /\
  (forall k v vs, Header Example.res_cookies !! k = Some (v :: vs) ->
     CanonicalMIMEHeaderKey
       (Example.env (Example.server Example.res_cookies)) k = k ->
     copy_header (Example.env (Example.server Example.res_cookies))
       (Header Example.res_cookies) !! k = Some v).
Proof.
  exact (Request_header_first_value
           (Example.env (Example.server Example.res_cookies))
           (Example.server Example.res_cookies) "GET" Example.url ∅ None
           ReturnBytes (VPtr 0) (Example.world 0)
           (mkRequest "GET" Example.url ∅ None) Example.res_cookies
           eq_refl eq_refl).
Defined.

(** C6 as stated fails on its last part: for a response with the two values
    "a=1" and "b=2" under "Set-Cookie", the mapping [Request] returns holds
    the first, "a=1", and not the last. *)
Lemma Request_header_last_value_counterexample :
  exists code hm err w',
    Request (Example.env (Example.server Example.res_cookies))
      (Example.server Example.res_cookies) "GET" Example.url ∅ None
      ReturnBytes (VPtr 0) (Example.world 0)
    = Done (code, hm, err) w' /\
    Header Example.res_cookies !! "Set-Cookie" = Some ["a=1"; "b=2"] /\
    hm !! "Set-Cookie" = Some "a=1" /\
    hm !! "Set-Cookie" <> last ["a=1"; "b=2"].
Proof.
  eexists _, _, _, _. split; [|split; [|split]].
  - rewrite (Request_sent
               (Example.env (Example.server Example.res_cookies))
               (Example.server Example.res_cookies) "GET" Example.url ∅ None
               ReturnBytes (VPtr 0) (Example.world 0)
               (mkRequest "GET" Example.url ∅ None) Example.res_cookies
               eq_refl eq_refl).
    reflexivity.
  - reflexivity.
  - rewrite copy_header_lookup. reflexivity.
  - rewrite copy_header_lookup. vm_compute. discriminate.
Qed.

(** * Download *)

Section Downloads.

Context (E : Env) (c : Client).

Lemma io_frame_trans w1 w2 w3 :
  io_frame w1 w2 -> io_frame w2 w3 -> io_frame w1 w3.
Proof.
  unfold io_frame. intros (?&?&?&?&?) (?&?&?&?&?).
  repeat split; congruence.
Qed.

(** A flush the disk has room for empties the buffer into the file. *)
Lemma Flush_fits (b : Writer) (w : World) (fc : list Byte.byte) :
  werr b = None ->
  (length (wbuf b) <= disk_free w)%nat ->
  files w !! wr b = Some fc ->
  exists b' w',
    Flush b w = Done (b', None) w' /\
    wr b' = wr b /\ wsize b' = wsize b /\ werr b' = None /\ wbuf b' = [] /\
    files w' !! wr b = Some (fc ++ wbuf b) /\
    disk_free w' = (disk_free w - length (wbuf b))%nat /\
    io_frame w w'.
Proof.
  intros Herr Hfree Hfile. unfold Flush. rewrite Herr.
  destruct (length (wbuf b) =? 0)%nat eqn:Hlen.
  - apply Nat.eqb_eq in Hlen.
    assert (Hb : wbuf b = []) by (by destruct (wbuf b)).
    exists b, w. rewrite Hb, app_nil_r. simpl.
    repeat split; try done. lia.
  - unfold bind, File_Write. simpl.
    rewrite (Nat.min_l _ _ Hfree), Nat.ltb_irrefl. simpl.
    eexists _, _. split; [reflexivity|]. simpl.
    rewrite lookup_insert_eq, Hfile, firstn_all. simpl.
    repeat split; done.
Qed.

Lemma ReadFrom_loop_eq src rerr b n :
  ReadFrom_loop src rerr b n =
  bind (if (Available b =? 0)%nat then Flush b else ret (b, None))
    (fun r =>
       match snd r with
       | Some err1 => ret (fst r, n, Some err1)
       | None =>
           match src with
           | x :: src' =>
               ReadFrom_loop src' rerr
                 (mkWriter (wr (fst r)) (wbuf (fst r) ++ [x])
                    (wsize (fst r)) (werr (fst r)))
                 (n + 1)
           | [] =>
               match rerr with
               | Some err => ret (fst r, n, Some err)
               | None =>
                   if (Available (fst r) =? 0)%nat
                   then bind (Flush (fst r)) (fun r' => ret (fst r', n, snd r'))
                   else ret (fst r, n, None)
               end
           end
       end).
Proof. destruct src; reflexivity. Qed.

(** Copying a source that ends with EOF into a writer whose file has room
    for everything: all bytes are counted, and file and buffer together hold
    what they held before followed by the source. *)
Lemma ReadFrom_loop_fits (src : list Byte.byte) :
  forall (b : Writer) (n : Z) (w : World) (fc : list Byte.byte),
    werr b = None ->
    (0 < wsize b)%nat ->
    (length (wbuf b) <= wsize b)%nat ->
    (length (wbuf b) + length src <= disk_free w)%nat ->
    files w !! wr b = Some fc ->
    exists b' w' fc',
      ReadFrom_loop src None b n w
      = Done (b', n + Z.of_nat (length src), None) w' /\
      wr b' = wr b /\ werr b' = None /\
      (length (wbuf b') <= disk_free w')%nat /\
      files w' !! wr b = Some fc' /\
      fc' ++ wbuf b' = fc ++ wbuf b ++ src /\
      io_frame w w'.
Proof.
  induction src as [|x src IH]; intros b n w fc Herr Hsize Hlen Hfree Hfile;
    rewrite ReadFrom_loop_eq; unfold bind at 1.
  - simpl in Hfree.
    destruct (Available b =? 0)%nat eqn:Hav.
    + destruct (Flush_fits b w fc Herr ltac:(lia) Hfile)
        as (b1 & w1 & -> & Hwr & Hsz & Herr1 & Hbuf & Hf1 & Hfree1 & Hfr).
      simpl. unfold Available. rewrite Hbuf, Hsz. simpl.
      destruct (wsize b - 0 =? 0)%nat eqn:Hz;
        [apply Nat.eqb_eq in Hz; lia|].
      exists b1, w1, (fc ++ wbuf b). rewrite Hbuf, Z.add_0_r, !app_nil_r.
      simpl. conjs; try done; lia.
    + simpl. rewrite Hav.
      exists b, w, fc. rewrite Z.add_0_r, app_nil_r.
      conjs; try done; lia.
  - simpl in Hfree.
    destruct (Available b =? 0)%nat eqn:Hav.
    + destruct (Flush_fits b w fc Herr ltac:(lia) Hfile)
        as (b1 & w1 & -> & Hwr & Hsz & Herr1 & Hbuf & Hf1 & Hfree1 & Hfr).
      simpl. rewrite Hwr, Hsz, Hbuf, Herr1. simpl.
      destruct (IH (mkWriter (wr b) [x] (wsize b) None) (n + 1) w1
                  (fc ++ wbuf b))
        as (b' & w' & fc' & Heq & Hwr' & Herr' & Hfree' & Hf' & Hcat & Hfr');
        [done | done | simpl; lia | simpl; lia | done |].
      exists b', w', fc'. simpl in *. rewrite Heq.
      conjs; try done.
      * by replace (n + Z.of_nat (S (length src)))
          with (n + 1 + Z.of_nat (length src)) by lia.
      * by rewrite Hcat, <- app_assoc.
      * by apply (io_frame_trans w w1 w').
    + simpl. apply Nat.eqb_neq in Hav. unfold Available in Hav.
      destruct (IH (mkWriter (wr b) (wbuf b ++ [x]) (wsize b) (werr b))
                  (n + 1) w fc)
        as (b' & w' & fc' & Heq & Hwr' & Herr' & Hfree' & Hf' & Hcat & Hfr');
        [done | done | simpl; rewrite length_app; simpl; lia
        | simpl; rewrite length_app; simpl; lia | done |].
      exists b', w', fc'. simpl in *. rewrite Heq.
      conjs; try done.
      * by replace (n + Z.of_nat (S (length src)))
          with (n + 1 + Z.of_nat (length src)) by lia.
      * by rewrite Hcat, <- app_assoc.
Qed.

(** C9: when the GET exchange yields a response with status 200 whose body
    of N bytes is read to its end, and the file at [savePath] can be opened
    and takes N bytes, [Download] returns N and no error, and the file
    holds exactly the N bytes of the body; the body and the file are each
    closed once. *)
Theorem Download_writes_body (url savePath : string) (w : World)
    (res : Response) :
  NewRequest_err E "GET" url = None ->
  Do c (mkRequest "GET" url ∅ None) = inr res ->
  StatusCode res = 200 ->
  read_err (ResBody res) = None ->
  OpenFile_err E savePath = None ->
  (length (content (ResBody res)) <= disk_free w)%nat ->
  exists w',
    Download E c url savePath w
    = Done (Z.of_nat (length (content (ResBody res))), None) w' /\
    files w' !! savePath = Some (content (ResBody res)) /\
    body_closes w' = S (body_closes w) /\
    file_closes w' = S (file_closes w).
Proof.
  intros Hnew Hdo Hcode Hread Hopen Hfree.
  unfold Download, http_NewRequest. rewrite Hnew.
  unfold bind at 1. unfold Client_Do. rewrite Hdo, Hcode. simpl.
  unfold bind at 1. unfold os_OpenFile. rewrite Hopen.
  unfold defer at 1. unfold bind at 1. unfold io_Copy. simpl.
  set (w1 := mkWorld _ _ _ _ _ _ _).
  destruct (ReadFrom_loop_fits (content (ResBody res))
              (bufio_NewWriter savePath) 0 w1 [])
    as (b' & w' & fc' & Heq & Hwr' & Herr' & Hfree' & Hf' & Hcat & Hfr');
    try done.
  { unfold bufio_NewWriter, defaultBufSize. simpl. lia. }
  { unfold bufio_NewWriter, defaultBufSize. simpl. lia. }
  { unfold w1. simpl. apply lookup_insert_eq. }
  rewrite Hread, Heq. simpl in *.
  unfold defer, bind.
  rewrite <- Hwr' in Hf'.
  destruct (Flush_fits b' w' fc' Herr' Hfree' Hf')
    as (b2 & w2 & -> & Hwr2 & Hsz2 & Herr2 & Hbuf2 & Hf2 & Hfree2 & Hfr2).
  simpl. eexists. split; [reflexivity|]. simpl.
  destruct Hfr' as (_ & Hbo & Hbc & Hfo & Hfc).
  destruct Hfr2 as (_ & Hbo2 & Hbc2 & Hfo2 & Hfc2).
  rewrite Hwr' in Hf2. rewrite Hf2, Hcat. simpl.
  subst w1. simpl in *. conjs; [|congruence|congruence].
  reflexivity.
Qed.

End Downloads.

(** The errors [Download] does return: the request cannot be built, the
    transport fails, the file cannot be opened. *)
Lemma Download_error_paths (E : Env) (c : Client) (url savePath : string)
    (w : World) :
  (forall err, NewRequest_err E "GET" url = Some err ->
     Download E c url savePath w = Done (0, Some err) w) /\
  (forall err, NewRequest_err E "GET" url = None ->
     Do c (mkRequest "GET" url ∅ None) = inl err ->
     Download E c url savePath w = Done (0, Some err) w) /\
  (forall res err, NewRequest_err E "GET" url = None ->
     Do c (mkRequest "GET" url ∅ None) = inr res ->
     StatusCode res = 200 ->
     OpenFile_err E savePath = Some err ->
     Download E c url savePath w = Done (0, Some err) (bump_body_opens w)).
Proof.
  conjs.
  - intros err Hnew. unfold Download, http_NewRequest. by rewrite Hnew.
  - intros err Hnew Hdo. unfold Download, http_NewRequest, bind, Client_Do.
    by rewrite Hnew, Hdo.
  - intros res err Hnew Hdo Hcode Hopen.
    unfold Download, http_NewRequest, bind, Client_Do, os_OpenFile.
    by rewrite Hnew, Hdo, Hcode, Hopen.
Qed.

(** A body larger than the buffer: with room on the disk the file receives
    all of it; a disk that is full from the start makes the copy fail, and
    that error is returned. *)
Example Download_large_body :
  (exists w',
     Download (Example.env (Example.server Example.res_big))
       (Example.server Example.res_big) Example.url Example.path
       (Example.world 5000)
     = Done (5000, None) w' /\
     files w' !! Example.path = Some Example.big) /\
  (exists w',
     Download (Example.env (Example.server Example.res_big))
       (Example.server Example.res_big) Example.url Example.path
       (Example.world 0)
     = Done (0, Some (LibError "no space left on device")) w').
Proof.
  split.
  - vm_compute. eexists. split; reflexivity.
  - vm_compute. eexists. reflexivity.
Qed.

Lemma Download_writes_body_witness :
  (length (content (ResBody Example.res_ok)) <= disk_free (Example.world 10))%nat /\
  exists w',
    Download (Example.env (Example.server Example.res_ok))
      (Example.server Example.res_ok) Example.url Example.path
      (Example.world 10)
    = Done (2, None) w' /\
    files w' !! Example.path = Some Example.hi /\
    body_closes w' = 1%nat /\ file_closes w' = 1%nat.
Proof.
  split; [simpl; lia|].
  apply (Download_writes_body
           (Example.env (Example.server Example.res_ok))
           (Example.server Example.res_ok) Example.url Example.path
           (Example.world 10) Example.res_ok);
    try reflexivity.
  simpl; lia.
Defined.

(** C3 fails on the code: a response body that was handed out is never
    closed when [Download] meets a status other than 200, cannot open the
    file, or fails to copy, nor when [Request] fails to read the body; on
    these paths [res.Body.Close] is not yet deferred when the function
    returns. *)
Theorem body_not_closed_on_early_return :
  (exists err w',
     Download (Example.env (Example.server Example.res_404))
       (Example.server Example.res_404) Example.url Example.path
       (Example.world 10)
     = Done (0, Some err) w' /\
     body_opens w' = 1%nat /\ body_closes w' = 0%nat) /\
  (exists err w',
     Download (Example.env_readonly (Example.server Example.res_ok))
       (Example.server Example.res_ok) Example.url Example.path
       (Example.world 10)
     = Done (0, Some err) w' /\
     body_opens w' = 1%nat /\ body_closes w' = 0%nat) /\
  (exists err w',
     Download (Example.env (Example.server Example.res_broken))
       (Example.server Example.res_broken) Example.url Example.path
       (Example.world 10)
     = Done (0, Some err) w' /\
     body_opens w' = 1%nat /\ body_closes w' = 0%nat /\
     file_opens w' = 1%nat /\ file_closes w' = 1%nat) /\
  (exists hm err w',
     Request (Example.env (Example.server Example.res_broken))
       (Example.server Example.res_broken) "GET" Example.url ∅ None
       ReturnBytes (VPtr 0) (Example.world 10)
     = Done (0, hm, Some err) w' /\
     body_opens w' = 1%nat /\ body_closes w' = 0%nat).
Proof.
  conjs.
  - vm_compute. eexists _, _. conjs; reflexivity.
  - vm_compute. eexists _, _. conjs; reflexivity.
  - vm_compute. eexists _, _. conjs; reflexivity.
  - vm_compute. eexists _, _, _. conjs; reflexivity.
Qed.


(** C4 fails on the code: for [ReturnBytes] the method [Get] of the default
    client stores the body in the caller's variable, while the package-level
    [Get], called with the same arguments, passes the address of its own
    parameter and leaves the caller's variable as it was; both return no
    error.  The same holds for [ReturnString] and for the wrappers
    [GetWithHeader], [PostForm], [PostJSON] and [PostXML]; [Request],
    [PostWithHeader] and [Download] pass their arguments on unchanged. *)
Theorem package_Get_misses_caller_variable :
  (exists w1,
     Get (Example.env (Example.server Example.res_ok))
       (HTTPClient (Example.env (Example.server Example.res_ok)))
       Example.url ReturnBytes (VPtr 0) (Example.world 0)
     = Done None w1 /\
     heap w1 !! 0%nat = Some (Cell TBytes (VBytes Example.hi))) /\
  (exists w2,
     Pkg.Get (Example.env (Example.server Example.res_ok)) Example.url
       ReturnBytes (VPtr 0) (Example.world 0)
     = Done None w2 /\
     heap w2 !! 0%nat = Some (Cell TBytes (VBytes []))).
Proof.
  split.
  - vm_compute. eexists. split; reflexivity.
  - vm_compute. eexists. split; reflexivity.
Qed.

(** The package-level [Request], [PostWithHeader] and [Download] are the
    methods of the default client, with the arguments passed on as they
    are. *)
Lemma package_functions_delegating (E : Env) :
  (forall method url hds data returnType result,
     Pkg.Request E method url hds data returnType result
     = Request E (HTTPClient E) method url hds data returnType result) /\
  (forall url header body returnType result,
     Pkg.PostWithHeader E url header body returnType result
     = PostWithHeader E (HTTPClient E) url header body returnType result) /\
  (forall url savePath,
     Pkg.Download E url savePath = Download E (HTTPClient E) url savePath).
Proof. conjs; reflexivity. Qed.

(** * Further properties of formatValue and Request *)

(** X1: decoding with [ReturnString] through a pointer to a variable that
    can hold a string returns no error and leaves in that variable the
    string with exactly the bytes of the body, the rest of the world being
    as before. *)
Theorem formatValue_string_stores_text (E : Env) (b : list Byte.byte)
    (l : addr) (c : cell) (w : World) :
  heap w !! l = Some c ->
  assignable TString (cell_type c) = true ->
  formatValue E ReturnString b (VPtr l) w
  = Done None
      (set_heap (<[l := Cell (cell_type c)
                          (VString (String.string_of_list_byte b))]> (heap w))
         w) /\
  String.list_byte_of_string (String.string_of_list_byte b) = b.
Proof.
  intros Hl Ha. split.
  - unfold formatValue. simpl.
    by apply (set_through_pointer w l c
                (VString (String.string_of_list_byte b))).
  - apply String.list_byte_of_string_of_list_byte.
Qed.

Lemma formatValue_string_stores_text_witness :
  formatValue (Example.env Example.offline) ReturnString Example.hi (VPtr 1)
    (Example.world2 0)
  = Done None
      (set_heap (<[1%nat := Cell TString (VString "hi")]>
                   (heap (Example.world2 0))) (Example.world2 0)) /\
  String.list_byte_of_string (String.string_of_list_byte Example.hi)
  = Example.hi.
Proof.
  apply (formatValue_string_stores_text (Example.env Example.offline)
           Example.hi 1%nat (Cell TString (VString EmptyString))
           (Example.world2 0)); reflexivity.
Defined.

(** X2: when the request cannot be built or the transport fails, [Request]
    returns that error with status code 0 and no header mapping, and the
    world is as before: no body stream exists and nothing is decoded. *)
Theorem Request_no_response (E : Env) (c : Client) method url hds data
    returnType result w :
  (forall err, NewRequest_err E method url = Some err ->
     Request E c method url hds data returnType result w
     = Done (0, ∅, Some err) w) /\
  (forall err, NewRequest_err E method url = None ->
     Do c (set_headers E (mkRequest method url ∅ data) hds) = inl err ->
     Request E c method url hds data returnType result w
     = Done (0, ∅, Some err) w).
Proof.
  split.
  - intros err Hnew. unfold Request, http_NewRequest. by rewrite Hnew.
  - intros err Hnew Hdo. unfold Request, http_NewRequest, bind, Client_Do.
    by rewrite Hnew, Hdo.
Qed.

Lemma Request_no_response_witness :
  Request (Example.env_bad_url Example.offline) Example.offline "GET"
    Example.url ∅ None ReturnBytes (VPtr 0) (Example.world 0)
  = Done (0, ∅, Some (LibError "missing protocol scheme")) (Example.world 0)
  /\
  Request (Example.env Example.offline) Example.offline "GET"
    Example.url ∅ None ReturnBytes (VPtr 0) (Example.world 0)
  = Done (0, ∅, Some (LibError "connection refused")) (Example.world 0).
Proof.
  split.
  - apply (proj1 (Request_no_response (Example.env_bad_url Example.offline)
                    Example.offline "GET" Example.url ∅ None ReturnBytes
                    (VPtr 0) (Example.world 0))).
    reflexivity.
  - apply (proj2 (Request_no_response (Example.env Example.offline)
                    Example.offline "GET" Example.url ∅ None ReturnBytes
                    (VPtr 0) (Example.world 0))); reflexivity.
Defined.

(** X3: [Request] does not judge the status code: for a response of any
    status whose body is read to its end, a call with [ReturnBytes] and a
    pointer to a byte-sequence variable returns that status code, the header
    mapping and no error, the variable holds the body, and the body stream
    is closed once. *)
Theorem Request_bytes_any_status (E : Env) (c : Client) method url hds data
    l cl w res :
  NewRequest_err E method url = None ->
  Do c (set_headers E (mkRequest method url ∅ data) hds) = inr res ->
  read_err (ResBody res) = None ->
  heap w !! l = Some cl ->
  assignable TBytes (cell_type cl) = true ->
  exists w',
    Request E c method url hds data ReturnBytes (VPtr l) w
    = Done (StatusCode res, copy_header E (Header res), None) w' /\
    heap w' !! l = Some (Cell (cell_type cl) (VBytes (content (ResBody res))))
    /\ body_opens w' = S (body_opens w)
    /\ body_closes w' = S (body_closes w).
Proof.
  intros Hnew Hdo Hread Hl Ha.
  rewrite (Request_sent E c _ _ _ _ _ _ _ _ res
             (http_NewRequest_ok E _ _ _ Hnew) Hdo), Hread.
  assert (Hfmt : formatValue E ReturnBytes (content (ResBody res)) (VPtr l)
                   (bump_body_opens w)
                 = Done None
                     (set_heap (<[l := Cell (cell_type cl)
                                        (VBytes (content (ResBody res)))]>
                                  (heap w)) (bump_body_opens w))).
  { unfold formatValue. simpl.
    by apply (set_through_pointer (bump_body_opens w) l cl
                (VBytes (content (ResBody res)))). }
  rewrite Hfmt. eexists. split; [reflexivity|]. simpl.
  by rewrite lookup_insert_eq.
Qed.

Lemma Request_bytes_any_status_witness :
  exists w',
    Request (Example.env (Example.server Example.res_404))
      (Example.server Example.res_404) "GET" Example.url ∅ None
      ReturnBytes (VPtr 0) (Example.world 0)
    = Done (404, copy_header (Example.env (Example.server Example.res_404))
                   (Header Example.res_404), None) w' /\
    heap w' !! 0%nat = Some (Cell TBytes (VBytes Example.not_found))
    /\ body_opens w' = 1%nat
    /\ body_closes w' = 1%nat.
Proof.
  apply (Request_bytes_any_status
           (Example.env (Example.server Example.res_404))
           (Example.server Example.res_404) "GET" Example.url ∅ None
           0%nat (Cell TBytes (VBytes [])) (Example.world 0)
           Example.res_404); reflexivity.
Defined.

(** X4: when reading the body fails, [Request] returns the read error with
    status code 0 and the header mapping, and decoding is not attempted: the
    caller's variables and the files are as before. *)
Theorem Request_read_error_skips_decode (E : Env) (c : Client) method url
    hds data returnType result w res err :
  NewRequest_err E method url = None ->
  Do c (set_headers E (mkRequest method url ∅ data) hds) = inr res ->
  read_err (ResBody res) = Some err ->
  exists w',
    Request E c method url hds data returnType result w
    = Done (0, copy_header E (Header res), Some err) w' /\
    heap w' = heap w /\ files w' = files w.
Proof.
  intros Hnew Hdo Hread.
  rewrite (Request_sent E c _ _ _ _ _ _ _ _ res
             (http_NewRequest_ok E _ _ _ Hnew) Hdo), Hread.
  eexists. split; [reflexivity|]. by split.
Qed.

Lemma Request_read_error_skips_decode_witness :
  exists w',
    Request (Example.env (Example.server Example.res_broken))
      (Example.server Example.res_broken) "GET" Example.url ∅ None
      ReturnBytes (VPtr 0) (Example.world 0)
    = Done (0, copy_header (Example.env (Example.server Example.res_broken))
                 (Header Example.res_broken),
            Some (LibError "unexpected EOF")) w' /\
    heap w' = heap (Example.world 0) /\ files w' = files (Example.world 0).
Proof.
  apply (Request_read_error_skips_decode
           (Example.env (Example.server Example.res_broken))
           (Example.server Example.res_broken) "GET" Example.url ∅ None
           ReturnBytes (VPtr 0) (Example.world 0) Example.res_broken);
    reflexivity.
Defined.

(** Decoding touches nothing but the caller's variables, whatever the
    return type and however it ends. *)
Lemma formatValue_heap_only (E : Env) returnType raw v w :
  heap_only w (final_world (formatValue E returnType raw v w)).
Proof.
  assert (Hset : forall x, x <> VNil ->
            heap_only w
              (final_world
                 (bind (reflect_Elem (reflect_ValueOf v))
                    (fun value =>
                       bind (reflect_Set value (reflect_ValueOf x))
                         (fun _ => ret (@None error))) w))).
  { intros x Hx. unfold bind, reflect_Elem, reflect_Set.
    destruct v as [| | | | | |l]; simpl; try by repeat split.
    destruct (heap w !! l) as [cl|] eqn:Hl; simpl; [|by repeat split].
    destruct x; try congruence; simpl; rewrite Hl;
      match goal with
      | |- context [assignable ?a ?b] => destruct (assignable a b)
      end; by repeat split. }
  unfold formatValue.
  destruct (returnType =? ReturnBytes); [by apply Hset|].
  destruct (returnType =? ReturnString); [by apply Hset|].
  destruct (returnType =? ReturnJSON).
  { unfold unmarshal. destruct (json_Unmarshal E raw v (heap w)).
    by repeat split. }
  destruct (returnType =? ReturnXML).
  { unfold unmarshal. destruct (xml_Unmarshal E raw v (heap w)).
    by repeat split. }
  by repeat split.
Qed.

(** X5: however [Request] ends, by a return or by a panic of the decode
    step, it leaves the files and the disk as they were, opens and closes no
    file, hands out at most one body stream and closes it at most once and
    only if it was handed out. *)
Theorem Request_frame (E : Env) (c : Client) method url hds data returnType
    result w :
  files (final_world (Request E c method url hds data returnType result w))
  = files w /\
  disk_free (final_world (Request E c method url hds data returnType result w))
  = disk_free w /\
  file_opens (final_world (Request E c method url hds data returnType result w))
  = file_opens w /\
  file_closes (final_world (Request E c method url hds data returnType result w))
  = file_closes w /\
  (body_opens w
   <= body_opens (final_world
                    (Request E c method url hds data returnType result w))
   <= S (body_opens w))%nat /\
  (body_closes w
   <= body_closes (final_world
                     (Request E c method url hds data returnType result w))
   <= S (body_closes w))%nat /\
  (body_closes (final_world
                  (Request E c method url hds data returnType result w))
   - body_closes w
   <= body_opens (final_world
                    (Request E c method url hds data returnType result w))
      - body_opens w)%nat.
Proof.
  unfold Request, bind, Client_Do, defer, ioutil_ReadAll.
  destruct (http_NewRequest E method url data) as [err|req]; simpl.
  { conjs; try done; lia. }
  destruct (Do c (set_headers E req hds)) as [err|res]; simpl.
  { conjs; try done; lia. }
  destruct (read_err (ResBody res)) as [err|]; simpl.
  { conjs; try done; lia. }
  pose proof (formatValue_heap_only E returnType (content (ResBody res))
                result (bump_body_opens w)) as Hf.
  destruct (formatValue E returnType (content (ResBody res)) result
              (bump_body_opens w)) as [[err|] w1|msg w1];
    destruct Hf as (Hfi & Hdf & Hbo & Hbc & Hfo & Hfc); simpl in *;
    rewrite Hfi, Hdf, Hbo, Hbc, Hfo, Hfc; conjs; try done; lia.
Qed.

(** * Further properties of the verb wrappers *)

Ltac nil_means_ok Hret :=
  let res := fresh "res" in
  let w1 := fresh "w1" in
  let Hc := fresh "Hc" in
  unfold GetWithHeader, PostWithHeader, Request, http_NewRequest, bind,
    Client_Do, defer, ioutil_ReadAll, ret in Hret;
  match type of Hret with
  | context [NewRequest_err ?E ?m ?u] =>
      destruct (NewRequest_err E m u); simpl in Hret; [discriminate|]
  end;
  match type of Hret with
  | context [Do ?c ?req] =>
      destruct (Do c req) as [?|res]; simpl in Hret; [discriminate|]
  end;
  exists res;
  destruct (read_err (ResBody res)); simpl in Hret; [discriminate|];
  match type of Hret with
  | context [formatValue ?E ?rt ?b ?v ?w] =>
      destruct (formatValue E rt b v w) as [[?|] w1|? w1];
        simpl in Hret; [discriminate| |discriminate]
  end;
  exists w1;
  destruct (Z.eqb_spec (StatusCode res) StatusOK) as [Hc|Hc];
    simpl in Hret; [|discriminate];
  unfold StatusOK in Hc; conjs; congruence.

(** X6: a nil result of [GetWithHeader] or [PostWithHeader] means that the
    request was built and sent, that the response had status 200, that its
    body was read to the end and decoded without error, and that the body
    stream was closed. *)
Theorem wrappers_nil_means_ok (E : Env) (c : Client) url header data
    returnType result w w' :
  (GetWithHeader E c url header returnType result w = Done None w' ->
   exists res w1,
     NewRequest_err E "GET" url = None /\
     Do c (set_headers E (mkRequest "GET" url ∅ None) header) = inr res /\
     StatusCode res = 200 /\ read_err (ResBody res) = None /\
     formatValue E returnType (content (ResBody res)) result
       (bump_body_opens w) = Done None w1 /\
     w' = Body_Close w1) /\
  (PostWithHeader E c url header data returnType result w = Done None w' ->
   exists res w1,
     NewRequest_err E "POST" url = None /\
     Do c (set_headers E (mkRequest "POST" url ∅ data) header) = inr res /\
     StatusCode res = 200 /\ read_err (ResBody res) = None /\
     formatValue E returnType (content (ResBody res)) result
       (bump_body_opens w) = Done None w1 /\
     w' = Body_Close w1).
Proof.
  split; intros Hret; nil_means_ok Hret.
Qed.

Lemma wrappers_nil_means_ok_witness :
  exists res w1,
    NewRequest_err (Example.env (Example.server Example.res_ok)) "GET"
      Example.url = None /\
    Do (Example.server Example.res_ok)
      (set_headers (Example.env (Example.server Example.res_ok))
         (mkRequest "GET" Example.url ∅ None) ∅) = inr res /\
    StatusCode res = 200 /\ read_err (ResBody res) = None /\
    formatValue (Example.env (Example.server Example.res_ok)) ReturnBytes
      (content (ResBody res)) (VPtr 0) (bump_body_opens (Example.world 0))
    = Done None w1 /\
    Body_Close
      (set_heap (<[0%nat := Cell TBytes (VBytes Example.hi)]>
                   (heap (Example.world 0)))
         (bump_body_opens (Example.world 0)))
    = Body_Close w1.
Proof.
  apply (proj1 (wrappers_nil_means_ok
                  (Example.env (Example.server Example.res_ok))
                  (Example.server Example.res_ok) Example.url ∅ None
                  ReturnBytes (VPtr 0) (Example.world 0)
                  (Body_Close
                     (set_heap (<[0%nat := Cell TBytes (VBytes Example.hi)]>
                                  (heap (Example.world 0)))
                        (bump_body_opens (Example.world 0)))))).
  reflexivity.
Defined.

(** What a status-checking wrapper answers for a response with status 200
    whose body is read: the outcome of the decode step, with the body
    closed. *)
Lemma checked_request_ok (E : Env) (c : Client) method url header data
    returnType result w res :
  NewRequest_err E method url = None ->
  Do c (set_headers E (mkRequest method url ∅ data) header) = inr res ->
  read_err (ResBody res) = None ->
  StatusCode res = 200 ->
  bind (Request E c method url header data returnType result)
    (fun r =>
       let '(code, _, err) := r in
       match err with
       | Some err => ret (Some err)
       | None =>
           if negb (code =? StatusOK)
           then ret (Some (Errorf "http response code; %v" [code]))
           else ret None
       end) w
  = defer Body_Close
      (formatValue E returnType (content (ResBody res)) result)
      (bump_body_opens w).
Proof.
  intros Hnew Hdo Hread Hcode. unfold bind at 1.
  rewrite (Request_sent E c _ _ _ _ _ _ _ _ res
             (http_NewRequest_ok E _ _ _ Hnew) Hdo), Hread.
  unfold defer.
  destruct (formatValue E returnType (content (ResBody res)) result
              (bump_body_opens w)) as [[err|] w1|msg w1]; try reflexivity.
  by rewrite Hcode.
Qed.

(** X7: against a server that answers with status 200 and a body that is
    read to its end, each of [Get], [GetWithHeader], [PostWithHeader],
    [PostForm], [PostJSON] and [PostXML] ends exactly as decoding the body
    ends (no error, the decode error, or its panic), with the body stream
    closed once. *)
Theorem wrappers_ok_status (E : Env) (c : Client) url header form body data
    returnType result w res :
  NewRequest_err E "GET" url = None ->
  NewRequest_err E "POST" url = None ->
  (forall req, req_url req = url -> Do c req = inr res) ->
  read_err (ResBody res) = None ->
  StatusCode res = 200 ->
  Get E c url returnType result w
  = defer Body_Close
      (formatValue E returnType (content (ResBody res)) result)
      (bump_body_opens w) /\
  GetWithHeader E c url header returnType result w
  = defer Body_Close
      (formatValue E returnType (content (ResBody res)) result)
      (bump_body_opens w) /\
  PostWithHeader E c url header data returnType result w
  = defer Body_Close
      (formatValue E returnType (content (ResBody res)) result)
      (bump_body_opens w) /\
  PostForm E c url form returnType result w
  = defer Body_Close
      (formatValue E returnType (content (ResBody res)) result)
      (bump_body_opens w) /\
  (forall bys, json_Marshal E body (heap w) = inr bys ->
     PostJSON E c url body returnType result w
     = defer Body_Close
         (formatValue E returnType (content (ResBody res)) result)
         (bump_body_opens w)) /\
  (forall bys, xml_Marshal E body (heap w) = inr bys ->
     PostXML E c url body returnType result w
     = defer Body_Close
         (formatValue E returnType (content (ResBody res)) result)
         (bump_body_opens w)).
Proof.
  intros Hget Hpost Hdo Hread Hcode.
  assert (Hchk : forall method h d,
            NewRequest_err E method url = None ->
            Do c (set_headers E (mkRequest method url ∅ d) h) = inr res)
    by (intros; by apply Hdo).
  conjs.
  - by apply checked_request_ok; [|apply Hchk| |].
  - by apply checked_request_ok; [|apply Hchk| |].
  - by apply checked_request_ok; [|apply Hchk| |].
  - by apply checked_request_ok; [|apply Hchk| |].
  - intros bys Hm. unfold PostJSON. rewrite Hm.
    by apply checked_request_ok; [|apply Hchk| |].
  - intros bys Hm. unfold PostXML. rewrite Hm.
    by apply checked_request_ok; [|apply Hchk| |].
Qed.

Lemma wrappers_ok_status_witness :
  StatusCode Example.res_ok = 200 /\
  Get (Example.env (Example.server Example.res_ok))
    (Example.server Example.res_ok) Example.url ReturnString (VPtr 1)
    (Example.world2 0)
  = defer Body_Close
      (formatValue (Example.env (Example.server Example.res_ok)) ReturnString
         (content (ResBody Example.res_ok)) (VPtr 1))
      (bump_body_opens (Example.world2 0)).
Proof.
  split; [reflexivity|].
  apply (wrappers_ok_status (Example.env (Example.server Example.res_ok))
           (Example.server Example.res_ok) Example.url ∅ ∅ VNil None
           ReturnString (VPtr 1) (Example.world2 0) Example.res_ok);
    reflexivity.
Defined.

(** The request that [Get] sends has no header and no body. *)
Lemma set_headers_empty (E : Env) (req : HttpRequest) :
  set_headers E req ∅ = req.
Proof.
  unfold set_headers. rewrite map_fold_empty. by destruct req.
Qed.

(** The request a wrapper with one header sends. *)
Lemma set_headers_singleton (E : Env) method url data key val :
  set_headers E (mkRequest method url ∅ data) {[ key := val ]}
  = mkRequest method url {[ CanonicalMIMEHeaderKey E key := [val] ]} data.
Proof.
  unfold set_headers. simpl. rewrite map_fold_singleton.
  unfold Header_Set. by rewrite insert_empty.
Qed.

(** X8: [Get] sends a GET request to the URL with no header and no body;
    when the answer has status 200 and its body is read to the end, [Get]
    with [ReturnBytes] (with [ReturnString]) and a pointer to a variable
    that can hold a byte sequence (a string) returns no error, the variable
    holds the body, and the body stream is closed once. *)
Theorem Get_stores_body (E : Env) (c : Client) url l cl w res :
  NewRequest_err E "GET" url = None ->
  Do c (mkRequest "GET" url ∅ None) = inr res ->
  StatusCode res = 200 ->
  read_err (ResBody res) = None ->
  heap w !! l = Some cl ->
  (assignable TBytes (cell_type cl) = true ->
   exists w',
     Get E c url ReturnBytes (VPtr l) w = Done None w' /\
     heap w' !! l
     = Some (Cell (cell_type cl) (VBytes (content (ResBody res)))) /\
     body_closes w' = S (body_closes w)) /\
  (assignable TString (cell_type cl) = true ->
   exists w',
     Get E c url ReturnString (VPtr l) w = Done None w' /\
     heap w' !! l
     = Some (Cell (cell_type cl)
               (VString (String.string_of_list_byte (content (ResBody res)))))
     /\ body_closes w' = S (body_closes w)).
Proof.
  intros Hnew Hdo Hcode Hread Hl.
  rewrite <- (set_headers_empty E (mkRequest "GET" url ∅ None)) in Hdo.
  split; intros Ha; unfold Get, GetWithHeader;
    rewrite (checked_request_ok E c "GET" url ∅ None _ (VPtr l) w res
               Hnew Hdo Hread Hcode);
    unfold defer.
  - assert (Hfmt : formatValue E ReturnBytes (content (ResBody res)) (VPtr l)
                     (bump_body_opens w)
                   = Done None
                       (set_heap (<[l := Cell (cell_type cl)
                                          (VBytes (content (ResBody res)))]>
                                    (heap w)) (bump_body_opens w))).
    { unfold formatValue. simpl.
      by apply (set_through_pointer (bump_body_opens w) l cl
                  (VBytes (content (ResBody res)))). }
    rewrite Hfmt. eexists. split; [reflexivity|]. simpl.
    by rewrite lookup_insert_eq.
  - assert (Hfmt : formatValue E ReturnString (content (ResBody res))
                     (VPtr l) (bump_body_opens w)
                   = Done None
                       (set_heap
                          (<[l := Cell (cell_type cl)
                                    (VString (String.string_of_list_byte
                                                (content (ResBody res))))]>
                             (heap w)) (bump_body_opens w))).
    { unfold formatValue. simpl.
      by apply (set_through_pointer (bump_body_opens w) l cl
                  (VString (String.string_of_list_byte
                              (content (ResBody res))))). }
    rewrite Hfmt. eexists. split; [reflexivity|]. simpl.
    by rewrite lookup_insert_eq.
Qed.

Lemma Get_stores_body_witness :
  exists w',
    Get (Example.env (Example.server Example.res_ok))
      (Example.server Example.res_ok) Example.url ReturnString (VPtr 1)
      (Example.world2 0) = Done None w' /\
    heap w' !! 1%nat = Some (Cell TString (VString "hi")) /\
    body_closes w' = 1%nat.
Proof.
  apply (proj2 (Get_stores_body (Example.env (Example.server Example.res_ok))
                  (Example.server Example.res_ok) Example.url 1%nat
                  (Cell TString (VString EmptyString)) (Example.world2 0)
                  Example.res_ok eq_refl eq_refl eq_refl eq_refl eq_refl)).
  reflexivity.
Defined.

(** X9: when the body value cannot be encoded, [PostJSON] and [PostXML]
    return the encoder's error at once: whatever the client, no request is
    sent and the world is as before. *)
Theorem Post_encode_error (E : Env) (c : Client) url body returnType result
    w :
  (forall err, json_Marshal E body (heap w) = inl err ->
     PostJSON E c url body returnType result w = Done (Some err) w) /\
  (forall err, xml_Marshal E body (heap w) = inl err ->
     PostXML E c url body returnType result w = Done (Some err) w).
Proof.
  split; intros err Hm.
  - unfold PostJSON. by rewrite Hm.
  - unfold PostXML. by rewrite Hm.
Qed.

Lemma Post_encode_error_witness :
  PostJSON (Example.env_no_marshal Example.offline)
    (Example.server Example.res_ok) Example.url (VInt 1) ReturnBytes
    (VPtr 0) (Example.world 0)
  = Done (Some (LibError "json: unsupported type")) (Example.world 0).
Proof.
  apply (proj1 (Post_encode_error (Example.env_no_marshal Example.offline)
                  (Example.server Example.res_ok) Example.url (VInt 1)
                  ReturnBytes (VPtr 0) (Example.world 0))).
  reflexivity.
Defined.

(** X10: [PostJSON] ([PostXML]) sends one request: a POST to the URL whose
    only header is Content-Type: application/json (application/xml), under
    the canonical spelling of that name, and whose body is the encoding of
    the value; two clients that answer this request alike give the same
    result. *)
Theorem Post_encoded_request (E : Env) (c c' : Client) url body returnType
    result w bys :
  (json_Marshal E body (heap w) = inr bys ->
   Do c (mkRequest "POST" url
           {[ CanonicalMIMEHeaderKey E "Content-Type" := ["application/json"] ]}
           (Some bys))
   = Do c' (mkRequest "POST" url
              {[ CanonicalMIMEHeaderKey E "Content-Type"
                 := ["application/json"] ]}
              (Some bys)) ->
   PostJSON E c url body returnType result w
   = PostJSON E c' url body returnType result w) /\
  (xml_Marshal E body (heap w) = inr bys ->
   Do c (mkRequest "POST" url
           {[ CanonicalMIMEHeaderKey E "Content-Type" := ["application/xml"] ]}
           (Some bys))
   = Do c' (mkRequest "POST" url
              {[ CanonicalMIMEHeaderKey E "Content-Type"
                 := ["application/xml"] ]}
              (Some bys)) ->
   PostXML E c url body returnType result w
   = PostXML E c' url body returnType result w).
Proof.
  split; intros Hm Hdo.
  - unfold PostJSON, PostWithHeader, Request, http_NewRequest. rewrite Hm.
    destruct (NewRequest_err E "POST" url); [reflexivity|].
    unfold bind, Client_Do. rewrite set_headers_singleton. by rewrite Hdo.
  - unfold PostXML, PostWithHeader, Request, http_NewRequest. rewrite Hm.
    destruct (NewRequest_err E "POST" url); [reflexivity|].
    unfold bind, Client_Do. rewrite set_headers_singleton. by rewrite Hdo.
Qed.

Lemma Post_encoded_request_witness :
  PostJSON (Example.env Example.offline) (Example.server Example.res_ok)
    Example.url (VInt 1) ReturnBytes (VPtr 0) (Example.world 0)
  = PostJSON (Example.env Example.offline) (Example.post_only Example.res_ok)
      Example.url (VInt 1) ReturnBytes (VPtr 0) (Example.world 0).
Proof.
  apply (proj1 (Post_encoded_request (Example.env Example.offline)
                  (Example.server Example.res_ok)
                  (Example.post_only Example.res_ok) Example.url (VInt 1)
                  ReturnBytes (VPtr 0) (Example.world 0)
                  [Byte.x7b; Byte.x7d])); reflexivity.
Defined.

(** X11: [PostForm] posts, with the header Content-Type:
    application/x-www-form-urlencoded, the encoding of a value set that has
    exactly the names of the form's fields, each with the single value that
    [GetString] gives for it. *)
Theorem PostForm_sends_every_field (E : Env) (c : Client) url
    (form : gmap string value) returnType result :
  exists values : gmap string (list string),
    (forall k, values !! k
               = (fun _ => [Map_GetString E form k]) <$> form !! k) /\
    dom values = dom form /\
    PostForm E c url form returnType result
    = PostWithHeader E c url
        {[ "Content-Type" := "application/x-www-form-urlencoded" ]}
        (Some (Values_Encode E values)) returnType result.
Proof.
  eexists. split; [|split; [|reflexivity]].
  - intros k.
    apply (fold_insert_lookup (fun k => [Map_GetString E form k]) form k).
  - apply set_eq. intros k. rewrite !elem_of_dom.
    rewrite (fold_insert_lookup (fun k => [Map_GetString E form k]) form k).
    by rewrite fmap_is_Some.
Qed.

(** X12: the value [Request] stores for a header name is looked up under
    the canonical spelling of the name: a name whose canonical spelling is
    not among the response's header names, or which has no values, gets the
    empty string; where the canonical spelling is present its first value is
    stored, also under a name spelled differently; a name the response does
    not have is not in the mapping. *)
Theorem copy_header_canonical_lookup (E : Env)
    (h : gmap string (list string)) (k : string) :
  (forall vs, h !! k = Some vs ->
     h !! CanonicalMIMEHeaderKey E k = None ->
     copy_header E h !! k = Some EmptyString) /\
  (forall vs, h !! k = Some vs ->
     h !! CanonicalMIMEHeaderKey E k = Some [] ->
     copy_header E h !! k = Some EmptyString) /\
  (forall vs v vs', h !! k = Some vs ->
     h !! CanonicalMIMEHeaderKey E k = Some (v :: vs') ->
     copy_header E h !! k = Some v) /\
  (h !! k = None -> copy_header E h !! k = None).
Proof.
  conjs.
  - intros vs Hk Hc. rewrite copy_header_lookup, Hk. simpl.
    unfold Header_Get. by rewrite Hc.
  - intros vs Hk Hc. rewrite copy_header_lookup, Hk. simpl.
    unfold Header_Get. by rewrite Hc.
  - intros vs v vs' Hk Hc. rewrite copy_header_lookup, Hk. simpl.
    unfold Header_Get. by rewrite Hc.
  - intros Hk. by rewrite copy_header_lookup, Hk.
Qed.

Lemma copy_header_canonical_lookup_witness :
  copy_header (Example.env Example.offline) (Header Example.res_odd_header)
    !! "x-trace" = Some EmptyString /\
  copy_header (Example.env Example.offline) (Header Example.res_odd_header)
    !! "X-Empty" = Some EmptyString.
Proof.
  split.
  - apply (proj1 (copy_header_canonical_lookup (Example.env Example.offline)
                    (Header Example.res_odd_header) "x-trace") ["t1"]);
      reflexivity.
  - apply (proj1 (proj2 (copy_header_canonical_lookup
                           (Example.env Example.offline)
                           (Header Example.res_odd_header) "X-Empty")) []);
      reflexivity.
Defined.

(** * Further properties of Download *)

(** X13: when the answer has a status other than 200, [Download] returns 0
    and the status error carrying the code; no file is opened, created or
    written, and the body stream is left open. *)
Theorem Download_non200_no_file (E : Env) (c : Client) url savePath w res :
  NewRequest_err E "GET" url = None ->
  Do c (mkRequest "GET" url ∅ None) = inr res ->
  StatusCode res <> 200 ->
  Download E c url savePath w
  = Done (0, Some (Errorf "http response code: %v" [StatusCode res]))
      (bump_body_opens w) /\
  files (bump_body_opens w) = files w /\
  file_opens (bump_body_opens w) = file_opens w /\
  body_closes (bump_body_opens w) = body_closes w.
Proof.
  intros Hnew Hdo Hcode. split; [|by conjs].
  unfold Download, http_NewRequest, bind, Client_Do. rewrite Hnew, Hdo.
  destruct (Z.eqb_spec (StatusCode res) 200); [contradiction|]. reflexivity.
Qed.

Lemma Download_non200_no_file_witness :
  Download (Example.env (Example.server Example.res_404))
    (Example.server Example.res_404) Example.url Example.path
    (Example.world 10)
  = Done (0, Some (Errorf "http response code: %v" [404]))
      (bump_body_opens (Example.world 10)) /\
  files (bump_body_opens (Example.world 10)) = files (Example.world 10) /\
  file_opens (bump_body_opens (Example.world 10))
  = file_opens (Example.world 10) /\
  body_closes (bump_body_opens (Example.world 10))
  = body_closes (Example.world 10).
Proof.
  apply (Download_non200_no_file
           (Example.env (Example.server Example.res_404))
           (Example.server Example.res_404) Example.url Example.path
           (Example.world 10) Example.res_404); try reflexivity.
  discriminate.
Defined.

(** A flush always returns, and touches nothing but the file and the
    disk. *)
Lemma Flush_total (b : Writer) (w : World) :
  exists b' err w', Flush b w = Done (b', err) w' /\ io_frame w w'.
Proof.
  unfold Flush. destruct (werr b) as [err|].
  { by exists b, (Some err), w. }
  destruct (length (wbuf b) =? 0)%nat.
  { by exists b, None, w. }
  unfold bind, File_Write. simpl.
  destruct (Nat.min (length (wbuf b)) (disk_free w) <? length (wbuf b))%nat;
    simpl; by eexists _, _, _.
Qed.

(** So does the copy loop, whatever the source and the state of the disk. *)
Lemma ReadFrom_loop_total (src : list Byte.byte) (rerr : option error) :
  forall (b : Writer) (n : Z) (w : World),
    exists r w', ReadFrom_loop src rerr b n w = Done r w' /\ io_frame w w'.
Proof.
  induction src as [|x src IH]; intros b n w;
    rewrite ReadFrom_loop_eq; unfold bind at 1.
  - destruct (Available b =? 0)%nat.
    + destruct (Flush_total b w) as (b1 & e1 & w1 & -> & Hfr1). simpl.
      destruct e1 as [e1|]; [by eexists _, _|].
      destruct rerr as [e|]; [by eexists _, _|].
      destruct (Available b1 =? 0)%nat; [|by eexists _, _].
      unfold bind.
      destruct (Flush_total b1 w1) as (b2 & e2 & w2 & -> & Hfr2).
      eexists _, _. split; [reflexivity|].
      by apply (io_frame_trans w w1 w2).
    + simpl. destruct rerr as [e|]; [by eexists _, _|].
      destruct (Available b =? 0)%nat; [|by eexists _, _].
      unfold bind.
      destruct (Flush_total b w) as (b2 & e2 & w2 & -> & Hfr2).
      by eexists _, _.
  - destruct (Available b =? 0)%nat.
    + destruct (Flush_total b w) as (b1 & e1 & w1 & -> & Hfr1). simpl.
      destruct e1 as [e1|]; [by eexists _, _|].
      destruct (IH (mkWriter (wr b1) (wbuf b1 ++ [x]) (wsize b1) (werr b1))
                  (n + 1) w1) as (r & w' & -> & Hfr').
      eexists _, _. split; [reflexivity|].
      by apply (io_frame_trans w w1 w').
    + simpl. apply IH.
Qed.

(** Copying a source that breaks off with an error, the disk having room
    for what it delivered: the error is returned, and file and buffer
    together hold what they held before followed by what was delivered. *)
Lemma ReadFrom_loop_read_error (src : list Byte.byte) (e : error) :
  forall (b : Writer) (n : Z) (w : World) (fc : list Byte.byte),
    werr b = None ->
    (0 < wsize b)%nat ->
    (length (wbuf b) <= wsize b)%nat ->
    (length (wbuf b) + length src <= disk_free w)%nat ->
    files w !! wr b = Some fc ->
    exists b' w' fc',
      ReadFrom_loop src (Some e) b n w
      = Done (b', n + Z.of_nat (length src), Some e) w' /\
      files w' !! wr b = Some fc' /\
      fc' ++ wbuf b' = fc ++ wbuf b ++ src /\
      io_frame w w'.
Proof.
  induction src as [|x src IH]; intros b n w fc Herr Hsize Hlen Hfree Hfile;
    rewrite ReadFrom_loop_eq; unfold bind at 1.
  - simpl in Hfree.
    destruct (Available b =? 0)%nat eqn:Hav.
    + destruct (Flush_fits b w fc Herr ltac:(lia) Hfile)
        as (b1 & w1 & -> & Hwr & Hsz & Herr1 & Hbuf & Hf1 & Hfree1 & Hfr).
      simpl. exists b1, w1, (fc ++ wbuf b).
      rewrite Hbuf, Z.add_0_r, !app_nil_r. by conjs.
    + simpl. exists b, w, fc. rewrite Z.add_0_r, app_nil_r. by conjs.
  - simpl in Hfree.
    destruct (Available b =? 0)%nat eqn:Hav.
    + destruct (Flush_fits b w fc Herr ltac:(lia) Hfile)
        as (b1 & w1 & -> & Hwr & Hsz & Herr1 & Hbuf & Hf1 & Hfree1 & Hfr).
      simpl. rewrite Hwr, Hsz, Hbuf, Herr1. simpl.
      destruct (IH (mkWriter (wr b) [x] (wsize b) None) (n + 1) w1
                  (fc ++ wbuf b))
        as (b' & w' & fc' & Heq & Hf' & Hcat & Hfr');
        [done | done | simpl; lia | simpl; lia | done |].
      exists b', w', fc'. simpl in *. rewrite Heq.
      conjs; try done.
      * by replace (n + Z.of_nat (S (length src)))
          with (n + 1 + Z.of_nat (length src)) by lia.
      * by rewrite Hcat, <- app_assoc.
      * by apply (io_frame_trans w w1 w').
    + simpl. apply Nat.eqb_neq in Hav. unfold Available in Hav.
      destruct (IH (mkWriter (wr b) (wbuf b ++ [x]) (wsize b) (werr b))
                  (n + 1) w fc)
        as (b' & w' & fc' & Heq & Hf' & Hcat & Hfr');
        [done | done | simpl; rewrite length_app; simpl; lia
        | simpl; rewrite length_app; simpl; lia | done |].
      exists b', w', fc'. simpl in *. rewrite Heq.
      conjs; try done.
      * by replace (n + Z.of_nat (S (length src)))
          with (n + 1 + Z.of_nat (length src)) by lia.
      * by rewrite Hcat, <- app_assoc.
Qed.

(** X14: when the body of a 200 response breaks off with a read error, the
    file having been opened and the disk having room, [Download] returns 0
    (not the number of bytes copied) and the read error; the file at
    [savePath] is left in place holding a prefix of what the body
    delivered, its handle is closed once, and the body stream is not
    closed. *)
Theorem Download_read_error_partial_file (E : Env) (c : Client) url savePath
    w res e :
  NewRequest_err E "GET" url = None ->
  Do c (mkRequest "GET" url ∅ None) = inr res ->
  StatusCode res = 200 ->
  read_err (ResBody res) = Some e ->
  OpenFile_err E savePath = None ->
  (length (content (ResBody res)) <= disk_free w)%nat ->
  exists w' fc,
    Download E c url savePath w = Done (0, Some e) w' /\
    files w' !! savePath = Some fc /\
    fc `prefix_of` content (ResBody res) /\
    file_opens w' = S (file_opens w) /\
    file_closes w' = S (file_closes w) /\
    body_closes w' = body_closes w.
Proof.
  intros Hnew Hdo Hcode Hread Hopen Hfree.
  unfold Download, http_NewRequest. rewrite Hnew.
  unfold bind at 1. unfold Client_Do. rewrite Hdo, Hcode. simpl.
  unfold bind at 1. unfold os_OpenFile. rewrite Hopen.
  unfold defer at 1. unfold bind at 1. unfold io_Copy. simpl.
  set (w1 := mkWorld _ _ _ _ _ _ _).
  destruct (ReadFrom_loop_read_error (content (ResBody res)) e
              (bufio_NewWriter savePath) 0 w1 [])
    as (b' & w' & fc' & Heq & Hf' & Hcat & Hfr'); try done.
  { unfold bufio_NewWriter, defaultBufSize. simpl. lia. }
  { unfold bufio_NewWriter, defaultBufSize. simpl. lia. }
  { unfold w1. simpl. apply lookup_insert_eq. }
  rewrite Hread, Heq. simpl in *.
  destruct Hfr' as (_ & Hbo & Hbc & Hfo & Hfc).
  subst w1. simpl in *.
  eexists _, fc'. split; [reflexivity|]. simpl.
  conjs; try done; try congruence.
  exists (wbuf b'). by rewrite Hcat.
Qed.

Lemma Download_read_error_partial_file_witness :
  exists w' fc,
    Download (Example.env (Example.server Example.res_broken))
      (Example.server Example.res_broken) Example.url Example.path
      (Example.world 10)
    = Done (0, Some (LibError "unexpected EOF")) w' /\
    files w' !! Example.path = Some fc /\
    fc `prefix_of` content (ResBody Example.res_broken) /\
    file_opens w' = 1%nat /\ file_closes w' = 1%nat /\
    body_closes w' = 0%nat.
Proof.
  apply (Download_read_error_partial_file
           (Example.env (Example.server Example.res_broken))
           (Example.server Example.res_broken) Example.url Example.path
           (Example.world 10) Example.res_broken (LibError "unexpected EOF"));
    try reflexivity.
  simpl; lia.
Defined.

(** X15: [Download] never panics and never touches the caller's variables;
    on every path it closes the destination file exactly as often as it
    opened it, at most once; and it closes the body stream exactly when it
    returns no error, so that every error return after the response has
    arrived leaves the body open. *)
Theorem Download_resource_discipline (E : Env) (c : Client) url savePath w :
  exists n err w',
    Download E c url savePath w = Done (n, err) w' /\
    heap w' = heap w /\
    (file_opens w' - file_opens w = file_closes w' - file_closes w)%nat /\
    (file_opens w <= file_opens w' <= S (file_opens w))%nat /\
    (file_closes w <= file_closes w')%nat /\
    (err = None ->
     body_opens w' = S (body_opens w) /\ body_closes w' = S (body_closes w)) /\
    (err <> None -> body_closes w' = body_closes w).
Proof.
  unfold Download.
  destruct (http_NewRequest E "GET" url None) as [e|req].
  { eexists _, _, _. split; [reflexivity|]. conjs; try done; lia. }
  unfold bind at 1. unfold Client_Do.
  destruct (Do c req) as [e|res].
  { eexists _, _, _. split; [reflexivity|]. conjs; try done; lia. }
  destruct (negb (StatusCode res =? 200)).
  { eexists _, _, _. split; [reflexivity|]. simpl. conjs; try done; lia. }
  unfold bind at 1. unfold os_OpenFile.
  destruct (OpenFile_err E savePath) as [e|].
  { eexists _, _, _. split; [reflexivity|]. simpl. conjs; try done; lia. }
  unfold defer at 1. unfold bind at 1. unfold io_Copy. simpl.
  set (w1 := mkWorld _ _ _ _ _ _ _).
  destruct (ReadFrom_loop_total (content (ResBody res))
              (read_err (ResBody res)) (bufio_NewWriter savePath) 0 w1)
    as ([[b' l] cerr] & w2 & -> & Hh & Hbo & Hbc & Hfo & Hfc).
  subst w1. simpl in *.
  destruct cerr as [e|].
  { eexists _, _, _. split; [reflexivity|]. simpl.
    rewrite Hh, Hbc, Hfo, Hfc. conjs; try done; lia. }
  unfold defer, bind.
  destruct (Flush_total b' w2)
    as (b3 & e3 & w3 & -> & Hh3 & Hbo3 & Hbc3 & Hfo3 & Hfc3).
  eexists _, _, _. split; [reflexivity|]. simpl.
  rewrite Hh3, Hbo3, Hbc3, Hfo3, Hfc3, Hh, Hbo, Hbc, Hfo, Hfc.
  conjs; try done; lia.
Qed.

(** * The package-level functions *)

(** A call of [Request] with [ReturnBytes] or [ReturnString] whose result
    argument points to a variable of type [interface{}] returns, and writes
    to no other variable. *)
Lemma Request_iface_target (E : Env) (c : Client) method url hds data
    returnType l0 v w :
  returnType = ReturnBytes \/ returnType = ReturnString ->
  heap w !! l0 = Some (Cell TIface v) ->
  exists r w',
    Request E c method url hds data returnType (VPtr l0) w = Done r w' /\
    forall l, l <> l0 -> heap w' !! l = heap w !! l.
Proof.
  intros Hrt Hl0.
  unfold Request, bind, Client_Do, defer, ioutil_ReadAll.
  destruct (http_NewRequest E method url data) as [e|req];
    [by eexists _, _|].
  destruct (Do c (set_headers E req hds)) as [e|res]; [by eexists _, _|].
  destruct (read_err (ResBody res)) as [e|]; [by eexists _, _|].
  assert (Hfmt : exists x,
            formatValue E returnType (content (ResBody res)) (VPtr l0)
              (bump_body_opens w)
            = Done None
                (set_heap (<[l0 := Cell TIface x]> (heap w))
                   (bump_body_opens w))).
  { destruct Hrt as [-> | ->]; eexists; unfold formatValue; simpl.
    - by apply (set_through_pointer (bump_body_opens w) l0 (Cell TIface v)
                  (VBytes (content (ResBody res)))).
    - by apply (set_through_pointer (bump_body_opens w) l0 (Cell TIface v)
                  (VString (String.string_of_list_byte
                              (content (ResBody res))))). }
  destruct Hfmt as (x & ->).
  eexists _, _. split; [reflexivity|].
  intros l Hne. simpl. by rewrite lookup_insert_ne.
Qed.

(** The same for the wrappers that check the status code. *)
Lemma checked_iface_target (E : Env) (c : Client) method url hds data
    returnType l0 v w :
  returnType = ReturnBytes \/ returnType = ReturnString ->
  heap w !! l0 = Some (Cell TIface v) ->
  exists err w',
    bind (Request E c method url hds data returnType (VPtr l0))
      (fun r =>
         let '(code, _, err) := r in
         match err with
         | Some err => ret (Some err)
         | None =>
             if negb (code =? StatusOK)
             then ret (Some (Errorf "http response code; %v" [code]))
             else ret None
         end) w
    = Done err w' /\
    forall l, l <> l0 -> heap w' !! l = heap w !! l.
Proof.
  intros Hrt Hl0. unfold bind at 1.
  destruct (Request_iface_target E c method url hds data returnType l0 v w
              Hrt Hl0) as ([[code hm] err] & w' & -> & Hframe).
  destruct err as [err|]; [by eexists _, _|].
  destruct (negb (code =? StatusOK)); by eexists _, _.
Qed.

(** Taking the address of a parameter gives a fresh variable of type
    [interface{}] and leaves the caller's variables alone. *)
Lemma addr_of_param_fresh (v : value) (w : World) :
  exists l0 w0,
    addr_of_param v w = Done (VPtr l0) w0 /\
    heap w !! l0 = None /\
    heap w0 !! l0 = Some (Cell TIface v) /\
    forall l, l <> l0 -> heap w0 !! l = heap w !! l.
Proof.
  unfold addr_of_param. eexists _, _. split; [reflexivity|]. simpl.
  conjs.
  - apply not_elem_of_dom, is_fresh.
  - apply lookup_insert_eq.
  - intros l Hne. by rewrite lookup_insert_ne.
Qed.

Ltac keeps_variables v w :=
  let l0 := fresh "l0" in
  let w0 := fresh "w0" in
  let Hnone := fresh "Hnone" in
  let Hsome := fresh "Hsome" in
  let Hold := fresh "Hold" in
  let err := fresh "err" in
  let w' := fresh "w'" in
  let Hcall := fresh "Hcall" in
  let Hframe := fresh "Hframe" in
  let l := fresh "l" in
  let cl := fresh "cl" in
  let Hl := fresh "Hl" in
  unfold bind at 1;
  destruct (addr_of_param_fresh v w) as (l0 & w0 & -> & Hnone & Hsome & Hold);
  match goal with
  | |- exists _ _, ?call = Done _ _ /\ _ =>
      assert (exists err w',
                call = Done err w' /\
                forall l, l <> l0 -> heap w' !! l = heap w0 !! l)
        as (err & w' & Hcall & Hframe)
  end;
  [ | exists err, w'; split; [exact Hcall|];
      intros l cl Hl;
      assert (l <> l0) by congruence;
      rewrite Hframe, Hold by done; exact Hl ].

(** X16: with [ReturnBytes] or [ReturnString], the package-level [Get],
    [GetWithHeader], [PostForm], [PostJSON] and [PostXML] return without a
    panic whatever is passed as result, and every variable the caller had
    holds afterwards what it held before: the body is stored in the
    function's own parameter. *)
Theorem package_wrappers_keep_caller_variables (E : Env) url header form
    body returnType v w :
  returnType = ReturnBytes \/ returnType = ReturnString ->
  (exists err w',
     Pkg.Get E url returnType v w = Done err w' /\
     forall l cl, heap w !! l = Some cl -> heap w' !! l = Some cl) /\
  (exists err w',
     Pkg.GetWithHeader E url header returnType v w = Done err w' /\
     forall l cl, heap w !! l = Some cl -> heap w' !! l = Some cl) /\
  (exists err w',
     Pkg.PostForm E url form returnType v w = Done err w' /\
     forall l cl, heap w !! l = Some cl -> heap w' !! l = Some cl) /\
  (exists err w',
     Pkg.PostJSON E url body returnType v w = Done err w' /\
     forall l cl, heap w !! l = Some cl -> heap w' !! l = Some cl) /\
  (exists err w',
     Pkg.PostXML E url body returnType v w = Done err w' /\
     forall l cl, heap w !! l = Some cl -> heap w' !! l = Some cl).
Proof.
  intros Hrt. conjs.
  - unfold Pkg.Get. keeps_variables v w.
    by apply (checked_iface_target E (HTTPClient E) "GET" url ∅ None
                returnType l0 v w0).
  - unfold Pkg.GetWithHeader. keeps_variables v w.
    by apply (checked_iface_target E (HTTPClient E) "GET" url header None
                returnType l0 v w0).
  - unfold Pkg.PostForm. keeps_variables v w.
    by apply (checked_iface_target E (HTTPClient E) "POST" url _ _
                returnType l0 v w0).
  - unfold Pkg.PostJSON. keeps_variables v w.
    unfold PostJSON. destruct (json_Marshal E body (heap w0)) as [e|bys];
      [by eexists _, _|].
    by apply (checked_iface_target E (HTTPClient E) "POST" url _ _
                returnType l0 v w0).
  - unfold Pkg.PostXML. keeps_variables v w.
    unfold PostXML. destruct (xml_Marshal E body (heap w0)) as [e|bys];
      [by eexists _, _|].
    by apply (checked_iface_target E (HTTPClient E) "POST" url _ _
                returnType l0 v w0).
Qed.

Lemma package_wrappers_keep_caller_variables_witness :
  exists err w',
    Pkg.GetWithHeader (Example.env (Example.server Example.res_ok))
      Example.url ∅ ReturnString (VPtr 1) (Example.world2 0)
    = Done err w' /\
    forall l cl, heap (Example.world2 0) !! l = Some cl ->
                 heap w' !! l = Some cl.
Proof.
  apply (package_wrappers_keep_caller_variables
           (Example.env (Example.server Example.res_ok)) Example.url ∅ ∅
           VNil ReturnString (VPtr 1) (Example.world2 0)).
  right. reflexivity.
Defined.

(** * Download on a full disk *)





(** X17: the failures of [Download] before the copy: when the request
    cannot be built or the transport fails, the error is returned and the
    world is as before; when the file cannot be opened, the open error is
    returned, no file is created or changed, and the body stream of the
    response stays open. *)
Theorem Download_fails_before_copy (E : Env) (c : Client) url savePath w :
  (forall err, NewRequest_err E "GET" url = Some err ->
     Download E c url savePath w = Done (0, Some err) w) /\
  (forall err, NewRequest_err E "GET" url = None ->
     Do c (mkRequest "GET" url ∅ None) = inl err ->
     Download E c url savePath w = Done (0, Some err) w) /\
  (forall res err, NewRequest_err E "GET" url = None ->
     Do c (mkRequest "GET" url ∅ None) = inr res ->
     StatusCode res = 200 ->
     OpenFile_err E savePath = Some err ->
     exists w',
       Download E c url savePath w = Done (0, Some err) w' /\
       files w' = files w /\ file_opens w' = file_opens w /\
       body_opens w' = S (body_opens w) /\ body_closes w' = body_closes w).
Proof.
  conjs.
  - intros err Hnew. unfold Download, http_NewRequest. by rewrite Hnew.
  - intros err Hnew Hdo. unfold Download, http_NewRequest, bind, Client_Do.
    by rewrite Hnew, Hdo.
  - intros res err Hnew Hdo Hcode Hopen.
    unfold Download, http_NewRequest, bind, Client_Do, os_OpenFile.
    rewrite Hnew, Hdo, Hcode, Hopen. simpl.
    eexists. split; [reflexivity|]. by conjs.
Qed.

Lemma Download_fails_before_copy_witness :
  (Download (Example.env Example.offline) Example.offline Example.url
     Example.path (Example.world 10)
   = Done (0, Some (LibError "connection refused")) (Example.world 10)) /\
  (exists w',
     Download (Example.env_readonly (Example.server Example.res_ok))
       (Example.server Example.res_ok) Example.url Example.path
       (Example.world 10)
     = Done (0, Some (LibError "permission denied")) w' /\
     files w' = files (Example.world 10) /\
     file_opens w' = file_opens (Example.world 10) /\
     body_opens w' = S (body_opens (Example.world 10)) /\
     body_closes w' = body_closes (Example.world 10)).
Proof.
  split.
  - apply (proj1 (proj2 (Download_fails_before_copy
                           (Example.env Example.offline) Example.offline
                           Example.url Example.path (Example.world 10))));
      reflexivity.
  - apply (proj2 (proj2 (Download_fails_before_copy
                           (Example.env_readonly
                              (Example.server Example.res_ok))
                           (Example.server Example.res_ok)
                           Example.url Example.path (Example.world 10)))
             Example.res_ok); reflexivity.
Defined.

(** X19: the return type is not looked at before the exchange: with a
    return type the package does not know, [Request] still sends the
    request and reads the whole body, and only then returns the error
    "unknown return type" with status code 0 and the header mapping; the
    body stream is closed and the caller's variables are as before. *)
Theorem Request_unknown_kind_after_exchange (E : Env) (c : Client) method
    url hds data returnType result w res :
  returnType < ReturnBytes \/ ReturnXML < returnType ->
  NewRequest_err E method url = None ->
  Do c (set_headers E (mkRequest method url ∅ data) hds) = inr res ->
  read_err (ResBody res) = None ->
  Request E c method url hds data returnType result w
  = Done (0, copy_header E (Header res),
          Some (Errorf "unknown return type" []))
      (Body_Close (bump_body_opens w)) /\
  heap (Body_Close (bump_body_opens w)) = heap w.
Proof.
  intros Hrt Hnew Hdo Hread. split; [|reflexivity].
  rewrite (Request_sent E c _ _ _ _ _ _ _ _ res
             (http_NewRequest_ok E _ _ _ Hnew) Hdo), Hread.
  assert (Hfmt : formatValue E returnType (content (ResBody res)) result
                   (bump_body_opens w)
                 = Done (Some (Errorf "unknown return type" []))
                     (bump_body_opens w)).
  { unfold formatValue, ReturnBytes, ReturnString, ReturnJSON, ReturnXML
      in *.
    destruct (Z.eqb_spec returnType 0); [lia|].
    destruct (Z.eqb_spec returnType 1); [lia|].
    destruct (Z.eqb_spec returnType 2); [lia|].
    destruct (Z.eqb_spec returnType 3); [lia|].
    reflexivity. }
  by rewrite Hfmt.
Qed.

Lemma Request_unknown_kind_after_exchange_witness :
  Request (Example.env (Example.server Example.res_ok))
    (Example.server Example.res_ok) "GET" Example.url ∅ None (-1) (VPtr 0)
    (Example.world 0)
  = Done (0, copy_header (Example.env (Example.server Example.res_ok))
               (Header Example.res_ok),
          Some (Errorf "unknown return type" []))
      (Body_Close (bump_body_opens (Example.world 0))) /\
  heap (Body_Close (bump_body_opens (Example.world 0)))
  = heap (Example.world 0).
Proof.
  apply (Request_unknown_kind_after_exchange
           (Example.env (Example.server Example.res_ok))
           (Example.server Example.res_ok) "GET" Example.url ∅ None (-1)
           (VPtr 0) (Example.world 0) Example.res_ok);
    try reflexivity.
  left. reflexivity.
Defined.
